(** * Mate-Engine voice services: the synthesis and transcription servers

    A shallow embedding of [TTSServer/tts_server.py] and
    [WhisperServer/whisper_server.py].  Both files are Flask request handlers
    around a pretrained model; what they do themselves is validation,
    temporary-file handling and response shaping.  The embedding keeps

    - Python values as an inductive type [pyval] (what [request.get_json()]
      and the Whisper result dictionary hold);
    - Python control flow as a state-and-exception monad [M]: the state is
      the process ([world]: the global model handle, the files on disk, and
      the ordered trace of library calls and log records), an [Exception]
      is [Raise], [sys.exit] is [Exit] (a [SystemExit], which
      [except Exception] does not catch);
    - everything the code calls but does not define (the model libraries,
      soundfile, librosa, Flask's [app.run], the name chosen by [tempfile])
      as fields of an environment record, each free to return or to raise.

    Strings are sequences of code points below 256; [isspace] and [lower]
    follow Python's [str] methods on that range.  Floats are binary64 values
    in the canonical form of [SpecFloat].  The file system follows POSIX:
    [os.unlink] of an existing path removes it, of a missing one raises
    [FileNotFoundError].  One handler invocation is modelled at a time. *)

From Stdlib Require Import ZArith String Ascii List Lia.
From Stdlib Require Import SpecFloat.
From stdpp Require Import base tactics option list sets gmap strings pretty.

Set Warnings "-register-all,-clear-no-such-hyp".

Local Open Scope Z_scope.
Local Open Scope string_scope.

(* ===================================================================== *)
(** * Python values and the string methods the handlers use              *)
(* ===================================================================== *)

Module Py.

Inductive pyval : Type :=
  | PNone
  | PBool (b : bool)
  | PInt (z : Z)
  | PFloat (f : spec_float)
  | PStr (s : string)
  | PList (l : list pyval)
  | PDict (d : list (string * pyval)).

(** An exception object: its class and [str(e)]. *)
Record exn : Type := Exn { exn_class : string; exn_msg : string }.

(** [type(v).__name__], as it appears in CPython's error messages. *)
Definition type_name (v : pyval) : string :=
  match v with
  | PNone => "NoneType"
  | PBool _ => "bool"
  | PInt _ => "int"
  | PFloat _ => "float"
  | PStr _ => "str"
  | PList _ => "list"
  | PDict _ => "dict"
  end.

(** [str.isspace] on one character (code points below 256). *)
Definition isspace (c : ascii) : bool :=
  let n := N_of_ascii c in
  ((9 <=? n) && (n <=? 13) || (28 <=? n) && (n <=? 32)
   || (n =? 133) || (n =? 160))%N.

(** [str.lower] on one character: A-Z, and the Latin-1 capitals except the
    multiplication sign. *)
Definition lower_char (c : ascii) : ascii :=
  let n := N_of_ascii c in
  if ((65 <=? n) && (n <=? 90)
      || (192 <=? n) && (n <=? 222) && negb (n =? 215))%N
  then ascii_of_N (n + 32) else c.

Fixpoint lower (s : string) : string :=
  match s with
  | EmptyString => EmptyString
  | String c s' => String (lower_char c) (lower s')
  end.

Fixpoint lstrip (s : string) : string :=
  match s with
  | EmptyString => EmptyString
  | String c s' => if isspace c then lstrip s' else s
  end.

Definition rstrip (s : string) : string :=
  string_of_list_ascii
    (rev (list_ascii_of_string (lstrip (string_of_list_ascii
                                          (rev (list_ascii_of_string s)))))).

(** [s.strip()] *)
Definition strip (s : string) : string := rstrip (lstrip s).

(** [s == ""], which is [not s] for a string. *)
Definition str_empty (s : string) : bool :=
  match s with EmptyString => true | _ => false end.

(** [s[:n]] *)
Fixpoint slice_to (n : nat) (s : string) : string :=
  match n, s with
  | S n', String c s' => String c (slice_to n' s')
  | _, _ => EmptyString
  end.

(** [needle in hay] for two strings. *)
Fixpoint str_contains (needle hay : string) : bool :=
  String.prefix needle hay
  || match hay with
     | EmptyString => false
     | String _ hay' => str_contains needle hay'
     end.

(** [d[k]] / [k in d] on the dictionary representation: the first binding
    of a key is the live one. *)
Fixpoint dict_lookup (k : string) (d : list (string * pyval)) : option pyval :=
  match d with
  | [] => None
  | (k', v) :: d' => if String.eqb k k' then Some v else dict_lookup k d'
  end.

(** [d.get(k, default)] *)
Definition dict_get (k : string) (default : pyval)
    (d : list (string * pyval)) : pyval :=
  match dict_lookup k d with Some v => v | None => default end.

(** The float [1.0]: mantissa 2^52, exponent -52. *)
Definition float_one : spec_float := S754_finite false 4503599627370496 (-52).

(** [v == 1.0].  An [int] or a [bool] is compared by value ([True == 1.0]);
    a float by IEEE equality (a NaN equals nothing); every other type is
    unequal to a float. *)
Definition eq_float_one (v : pyval) : bool :=
  match v with
  | PBool b => b
  | PInt z => (z =? 1)%Z
  | PFloat f => SFeqb f float_one
  | _ => false
  end.

(** Truth value of an object ([bool(v)]). *)
Definition truthy (v : pyval) : bool :=
  match v with
  | PNone => false
  | PBool b => b
  | PInt z => negb (z =? 0)%Z
  | PFloat (S754_zero _) => false
  | PFloat _ => true
  | PStr s => negb (str_empty s)
  | PList l => match l with [] => false | _ => true end
  | PDict d => match d with [] => false | _ => true end
  end.

(** [x == "…"] for an element tested by [in] on a list. *)
Definition eq_str (k : string) (v : pyval) : bool :=
  match v with PStr s => String.eqb s k | _ => false end.

End Py.
Export Py.

(* ===================================================================== *)
(** * The process: state, exceptions, library calls                      *)
(* ===================================================================== *)

Module Runtime.

(** What a library call gives back: a value, or an [Exception]. *)
Inductive result (A : Type) : Type :=
  | Returns (a : A)
  | Raises (e : exn).
Arguments Returns {A} a.
Arguments Raises {A} e.

(** The loaded model object held by the process-wide global. *)
Record handle : Type := Handle { h_model_name : string; h_device : string }.

(** A waveform (the numpy array of samples) and the bytes of a file. *)
Definition audio : Type := list spec_float.
Definition bytes : Type := list Byte.byte.

Inductive level : Type := INFO | ERROR.

(** The calls a handler makes that act on the world outside it, in the
    order they are made, together with the records written to the logger.
    A call is recorded when it is made, whatever it then does. *)
Inductive event : Type :=
  | EvLog (l : level) (msg : string)
  | EvLoadModel (name : string)
  | EvToDevice (device : string)
  | EvTmpCreate (path : string)
  | EvSave (path : string)
  | EvTtsToFile (text path : string)
  | EvTranscribe (path : string)
  | EvSfRead (path : string)
  | EvUnlink (path : string)
  | EvTimeStretch (a : audio) (rate : pyval)
  | EvSfWrite (a : audio) (sample_rate : Z)
  | EvAppRun (host : string) (port : Z) (debug threaded : bool).

(** The process state: the module-level global ([tts_model] / [model]),
    the paths that exist on disk, and the trace. *)
Record world : Type := World {
  model : option handle;
  fs : gset string;
  trace : list event
}.

Definition set_model (h : handle) (w : world) : world :=
  {| model := Some h; fs := fs w; trace := trace w |}.
Definition set_fs (f : gset string) (w : world) : world :=
  {| model := model w; fs := f; trace := trace w |}.
Definition record (e : event) (w : world) : world :=
  {| model := model w; fs := fs w; trace := trace w ++ [e] |}.

(** How a piece of Python code ends: normally with a value, with an
    [Exception] in flight, or with [SystemExit] from [sys.exit(code)]. *)
Inductive outcome (A : Type) : Type :=
  | Ok (a : A)
  | Raise (e : exn)
  | Exit (code : Z).
Arguments Ok {A} a.
Arguments Raise {A} e.
Arguments Exit {A} code.

Definition M (A : Type) : Type := world -> outcome A * world.

Definition ret {A} (a : A) : M A := fun w => (Ok a, w).

Definition bind {A B} (m : M A) (k : A -> M B) : M B :=
  fun w =>
    match m w with
    | (Ok a, w') => k a w'
    | (Raise e, w') => (Raise e, w')
    | (Exit c, w') => (Exit c, w')
    end.

Definition raise {A} (e : exn) : M A := fun w => (Raise e, w).

(** [sys.exit(code)] *)
Definition sys_exit {A} (code : Z) : M A := fun w => (Exit code, w).

(** [try: m  except Exception as e: h e].  A [SystemExit] passes through. *)
Definition try_except {A} (m : M A) (h : exn -> M A) : M A :=
  fun w =>
    match m w with
    | (Raise e, w') => h e w'
    | r => r
    end.

Definition get_model : M (option handle) := fun w => (Ok (model w), w).
Definition put_model (h : handle) : M unit := fun w => (Ok tt, set_model h w).
Definition emit (e : event) : M unit := fun w => (Ok tt, record e w).

Definition lift {A} (r : result A) : M A :=
  match r with
  | Returns a => ret a
  | Raises e => raise e
  end.

(** A library call: recorded, then its result taken. *)
Definition call {A} (e : event) (r : result A) : M A :=
  bind (emit e) (fun _ => lift r).

Definition logger_info (msg : string) : M unit := emit (EvLog INFO msg).
Definition logger_error (msg : string) : M unit := emit (EvLog ERROR msg).

Declare Scope py_scope.
Delimit Scope py_scope with py.
Notation "'let*' x ':=' m 'in' k" := (bind m (fun x => k))
  (at level 10, x pattern, m at level 100, k at level 200) : py_scope.
Notation "'run' m 'then' k" := (bind m (fun _ => k))
  (at level 10, m at level 100, k at level 200) : py_scope.
Local Open Scope py_scope.

(** ** Exceptions raised by the interpreter and the standard library *)

Definition AttributeError (v : pyval) (attr : string) : exn :=
  Exn "AttributeError"
      ("'" ++ type_name v ++ "' object has no attribute '" ++ attr ++ "'").
Definition TypeError (msg : string) : exn := Exn "TypeError" msg.
Definition KeyError (k : string) : exn := Exn "KeyError" ("'" ++ k ++ "'").
Definition FileNotFoundError (p : string) : exn :=
  Exn "FileNotFoundError"
      ("[Errno 2] No such file or directory: '" ++ p ++ "'").
Definition FileExistsError : exn :=
  Exn "FileExistsError" "[Errno 17] No usable temporary file name found".

(** ** Operations on objects *)

(** [k in v] *)
Definition py_contains (k : string) (v : pyval) : M bool :=
  match v with
  | PDict d => ret (match dict_lookup k d with Some _ => true | None => false end)
  | PList l => ret (existsb (eq_str k) l)
  | PStr s => ret (str_contains k s)
  | _ => raise (TypeError ("argument of type '" ++ type_name v
                           ++ "' is not iterable"))
  end.

(** [v[k]] for a string [k] *)
Definition py_getitem (k : string) (v : pyval) : M pyval :=
  match v with
  | PDict d =>
      match dict_lookup k d with
      | Some x => ret x
      | None => raise (KeyError k)
      end
  | PList _ => raise (TypeError "list indices must be integers or slices, not str")
  | PStr _ => raise (TypeError "string indices must be integers, not 'str'")
  | _ => raise (TypeError ("'" ++ type_name v ++ "' object is not subscriptable"))
  end.

(** [v.get(k, default)] *)
Definition py_get (k : string) (default : pyval) (v : pyval) : M pyval :=
  match v with
  | PDict d => ret (dict_get k default d)
  | _ => raise (AttributeError v "get")
  end.

(** Looking up a [str] method on [v]: only a string has it; the string is
    handed on to the method. *)
Definition str_method (attr : string) (v : pyval) : M string :=
  match v with
  | PStr s => ret s
  | _ => raise (AttributeError v attr)
  end.

(** ** Files *)

(** [tempfile.NamedTemporaryFile(delete=False, suffix=...)]: the file is
    created exclusively under a name [tempfile] picks ([pick], given what
    exists).  With [delete=False] leaving the [with] block only closes the
    file, so the path stays on disk until somebody unlinks it.  Running out
    of unused names raises [FileExistsError]. *)
Definition NamedTemporaryFile (pick : gset string -> string)
    (suffix : string) : M string :=
  fun w =>
    let p := pick (fs w) ++ suffix in
    if bool_decide (p ∈ fs w)
    then (Raise FileExistsError, record (EvTmpCreate p) w)
    else (Ok p, set_fs ({[ p ]} ∪ fs w) (record (EvTmpCreate p) w)).

(** [os.unlink(p)] *)
Definition os_unlink (p : string) : M unit :=
  fun w =>
    if bool_decide (p ∈ fs w)
    then (Ok tt, set_fs (fs w ∖ {[ p ]}) (record (EvUnlink p) w))
    else (Raise (FileNotFoundError p), record (EvUnlink p) w).

(** [os.path.exists(p)] *)
Definition os_path_exists (p : string) : M bool :=
  fun w => (Ok (bool_decide (p ∈ fs w)), w).

(** ** Responses *)

Inductive body : Type :=
  | JsonBody (v : pyval)
  | RawBody (v : pyval)
  | FileBody (b : bytes).

Record response : Type := Response {
  status : Z;
  content_type : string;
  payload : body;
  download_name : option string
}.

(** [jsonify(v)] *)
Definition jsonify (v : pyval) : response :=
  {| status := 200; content_type := "application/json";
     payload := JsonBody v; download_name := None |}.

(** [return resp, code] *)
Definition with_status (r : response) (code : Z) : response :=
  {| status := code; content_type := content_type r;
     payload := payload r; download_name := download_name r |}.

(** [jsonify({"error": msg}), code] *)
Definition error_response (msg : string) (code : Z) : response :=
  with_status (jsonify (PDict [("error", PStr msg)])) code.

(** [return v, code, {'Content-Type': ct}] *)
Definition raw_response (v : pyval) (code : Z) (ct : string) : response :=
  {| status := code; content_type := ct;
     payload := RawBody v; download_name := None |}.

(** [send_file(buffer, mimetype=mt, as_attachment=True, download_name=name)] *)
Definition send_file (b : bytes) (mt : string) (name : string) : response :=
  {| status := 200; content_type := mt;
     payload := FileBody b; download_name := Some name |}.

(** Command-line arguments after [parse_args]. *)
Record args : Type := Args {
  arg_port : Z;
  arg_host : string;
  arg_model : string;
  arg_debug : bool
}.

End Runtime.
Export Runtime.

(* ===================================================================== *)
(** * TTSServer/tts_server.py                                            *)
(* ===================================================================== *)

Module TTSServer.
Local Open Scope py_scope.

(** What the synthesis server calls and does not define. *)
Record env : Type := Env {
  cuda_is_available : bool;                          (* torch.cuda.is_available() *)
  TTS : string -> result handle;                     (* TTS(model_name=...) *)
  to_device : handle -> string -> result handle;     (* .to(device) *)
  tempfile_name : gset string -> string;
  tts_to_file : handle -> string -> string -> result unit;
  sf_read : string -> result (audio * Z);            (* sf.read(path) *)
  time_stretch : audio -> pyval -> result audio;     (* librosa.effects.time_stretch *)
  sf_write : audio -> Z -> result bytes;             (* sf.write(buf, data, rate, 'WAV') *)
  parse_args : outcome args;
  app_run : args -> result unit
}.

(** The Flask request, as far as the handler looks at it. *)
Record request : Type := Request { get_json : result pyval }.

Section Server.
Variable E : env.

Definition primary_model : string := "tts_models/en/ljspeech/tacotron2-DDC".
Definition fallback_model : string := "tts_models/en/ljspeech/glow-tts".

Definition load_tts_model : M bool :=
  try_except
    (run logger_info "Loading TTS model..." then
     let model_name := primary_model in
     let device := if cuda_is_available E then "cuda" else "cpu" in
     run logger_info ("Using device: " ++ device) then
     let* loaded := call (EvLoadModel model_name) (TTS E model_name) in
     let* placed := call (EvToDevice device) (to_device E loaded device) in
     run put_model placed then
     run logger_info "TTS model loaded successfully" then
     ret true)
    (fun e =>
     run logger_error ("Failed to load TTS model: " ++ exn_msg e) then
     try_except
       (run logger_info "Trying fallback model..." then
        let* loaded := call (EvLoadModel fallback_model) (TTS E fallback_model) in
        run put_model loaded then
        run logger_info "Fallback TTS model loaded successfully" then
        ret true)
       (fun e2 =>
        run logger_error ("Fallback model also failed: " ++ exn_msg e2) then
        ret false)).

Definition health : M response :=
  let* tts_model := get_model in
  ret (jsonify (PDict [
    ("status", PStr "healthy");
    ("model_loaded", PBool (match tts_model with Some _ => true | None => false end));
    ("service", PStr "coqui-tts");
    ("cuda_available", PBool (cuda_is_available E)) ])).

(** The text of the log line: [text[:50]], then dots when the text is longer. *)
Definition synthesizing_message (text : string) : string :=
  "Synthesizing text: '" ++ slice_to 50 text
  ++ (if (50 <? String.length text)%nat then "..." else "") ++ "'".

(** Lines 95-106: the model writes the speech to a fresh temporary file,
    the waveform and its sample rate are read back, the file is removed. *)
Definition render_waveform (tts_model : handle) (text : string)
    : M (audio * Z) :=
  let* tmp_filename := NamedTemporaryFile (tempfile_name E) ".wav" in
  run call (EvTtsToFile text tmp_filename)
           (tts_to_file E tts_model text tmp_filename) then
  let* read_back := call (EvSfRead tmp_filename) (sf_read E tmp_filename) in
  run os_unlink tmp_filename then
  ret read_back.

(** Lines 108-128: the speed adjustment, then the container.  [librosa] is
    imported by the TTS package itself, so [import librosa] finds it. *)
Definition encode_waveform (audio_data : audio) (sample_rate : Z)
    (response_format speed : pyval) : M response :=
  let* audio_data :=
    (if negb (eq_float_one speed)
     then call (EvTimeStretch audio_data speed)
               (time_stretch E audio_data speed)
     else ret audio_data) in
  let* fmt := str_method "lower" response_format in
  if String.eqb (lower fmt) "wav"
  then
    let* wav_buffer := call (EvSfWrite audio_data sample_rate)
                            (sf_write E audio_data sample_rate) in
    ret (send_file wav_buffer "audio/wav" "speech.wav")
  else ret (error_response ("Unsupported format: " ++ fmt) 400).

(** Lines 94-132: the inner [try] of [synthesize]. *)
Definition generate_speech (tts_model : handle) (text : string)
    (response_format speed : pyval) : M response :=
  try_except
    (let* read_back := render_waveform tts_model text in
     encode_waveform (fst read_back) (snd read_back) response_format speed)
    (fun e =>
     run logger_error ("Speech synthesis error: " ++ exn_msg e) then
     ret (error_response ("Speech synthesis failed: " ++ exn_msg e) 500)).

Definition synthesize (req : request) : M response :=
  try_except
    (let* tts_model := get_model in
     match tts_model with
     | None => ret (error_response "TTS model not loaded" 500)
     | Some tts =>
         let* data := lift (get_json req) in
         let* no_text :=
           (if negb (truthy data) then ret true
            else let* present := py_contains "text" data in
                 ret (negb present)) in
         if (no_text : bool)
         then ret (error_response "No text provided" 400)
         else
           let* text_obj := py_getitem "text" data in
           let* text := str_method "strip" text_obj in
           if str_empty (strip text)
           then ret (error_response "Empty text provided" 400)
           else
             let* response_format := py_get "response_format" (PStr "wav") data in
             let* speed := py_get "speed" (PFloat float_one) data in
             run logger_info (synthesizing_message text) then
             generate_speech tts text response_format speed
     end)
    (fun e =>
     run logger_error ("Request processing error: " ++ exn_msg e) then
     ret (error_response ("Request processing failed: " ++ exn_msg e) 500)).

(** [GET /voices] *)
Definition get_voices : M response :=
  ret (jsonify (PDict [
    ("voices", PList [PStr "default"]);
    ("current_voice", PStr "default");
    ("note", PStr "Voice selection depends on the loaded TTS model") ])).

(** The list in [get_models]. *)
Definition available_models : list string := [
  "tts_models/en/ljspeech/tacotron2-DDC";
  "tts_models/en/ljspeech/glow-tts";
  "tts_models/en/ljspeech/speedy-speech";
  "tts_models/en/ljspeech/tacotron2-DCA";
  "tts_models/en/vctk/vits";
  "tts_models/en/sam/tacotron-DDC" ].

(** [GET /models].  [attribute obj name] is what [getattr] finds on the
    model object, if anything; which attributes the object carries is up
    to the TTS library.  A model object is neither a number nor a
    container, so [if tts_model] asks whether it is [None]. *)
Definition get_models (attribute : handle -> string -> option pyval)
    : M response :=
  let* tts_model := get_model in
  let current_model :=
    match tts_model with
    | Some obj =>
        match attribute obj "model_name" with
        | Some v => v
        | None => PStr "unknown"
        end
    | None => PNone
    end in
  ret (jsonify (PDict [
    ("models", PList (map PStr available_models));
    ("current_model", current_model) ])).

Definition main : M unit :=
  let* a := (fun w => (parse_args E, w)) in
  let* loaded := load_tts_model in
  run (if negb loaded
       then run logger_error "Failed to load TTS model. Exiting." then
            sys_exit 1
       else ret tt) then
  run logger_info ("Starting TTS server on " ++ arg_host a ++ ":"
                   ++ pretty (arg_port a)) then
  try_except
    (call (EvAppRun (arg_host a) (arg_port a) (arg_debug a) true) (app_run E a))
    (fun e =>
     run logger_error ("Server error: " ++ exn_msg e) then
     sys_exit 1).

End Server.
End TTSServer.

(* ===================================================================== *)
(** * WhisperServer/whisper_server.py                                    *)
(* ===================================================================== *)

Module WhisperServer.
Local Open Scope py_scope.

(** An uploaded file ([FileStorage]). *)
Record upload : Type := Upload { filename : string; content : bytes }.

(** The Flask request: [request.files] and [request.form]. *)
Record request : Type := Request {
  files : list (string * upload);
  form : list (string * string)
}.

(** What the transcription server calls and does not define. *)
Record env : Type := Env {
  load_model : string -> result handle;              (* whisper.load_model(name) *)
  tempfile_name : gset string -> string;
  save : upload -> string -> result unit;            (* audio_file.save(path) *)
  model_transcribe : handle -> string -> result pyval;
  parse_args : outcome args;
  app_run : args -> result unit
}.

(** [name in request.files] / [request.files[name]]: the first part of
    that name. *)
Fixpoint files_lookup (name : string) (fl : list (string * upload))
    : option upload :=
  match fl with
  | [] => None
  | (k, u) :: fl' => if String.eqb name k then Some u else files_lookup name fl'
  end.

(** [request.form.get(name, default)] *)
Fixpoint form_get (name default : string) (fm : list (string * string))
    : string :=
  match fm with
  | [] => default
  | (k, v) :: fm' => if String.eqb name k then v else form_get name default fm'
  end.

Section Server.
Variable E : env.

Definition load_whisper_model (model_name : string) : M bool :=
  try_except
    (run logger_info ("Loading Whisper model: " ++ model_name) then
     let* loaded := call (EvLoadModel model_name) (load_model E model_name) in
     run put_model loaded then
     run logger_info "Whisper model loaded successfully" then
     ret true)
    (fun e =>
     run logger_error ("Failed to load Whisper model: " ++ exn_msg e) then
     ret false).

Definition health : M response :=
  let* model := get_model in
  ret (jsonify (PDict [
    ("status", PStr "healthy");
    ("model_loaded", PBool (match model with Some _ => true | None => false end));
    ("service", PStr "whisper-stt") ])).

(** Lines 80-90: the response built from the model's result. *)
Definition shape_result (response_format : string) (result : pyval)
    : M response :=
  if String.eqb response_format "json"
  then
    let* text := py_getitem "text" result in
    let* language := py_get "language" (PStr "en") result in
    let* duration := py_get "duration" (PInt 0) result in
    let* segments := py_get "segments" (PList []) result in
    ret (jsonify (PDict [ ("text", text); ("language", language);
                          ("duration", duration); ("segments", segments) ]))
  else
    let* text := py_getitem "text" result in
    ret (raw_response text 200 "text/plain").

(** Lines 92-97: the [except] clause of the inner [try]. *)
Definition transcription_failed (tmp_name : string) (e : exn) : M response :=
  run logger_error ("Transcription error: " ++ exn_msg e) then
  let* still_there := os_path_exists tmp_name in
  run (if (still_there : bool) then os_unlink tmp_name else ret tt) then
  ret (error_response ("Transcription failed: " ++ exn_msg e) 500).

(** Lines 72-97: the inner [try] of [transcribe]. *)
Definition transcribe_file (model : handle) (tmp_name response_format : string)
    : M response :=
  try_except
    (run logger_info ("Transcribing audio file: " ++ tmp_name) then
     let* result := call (EvTranscribe tmp_name)
                         (model_transcribe E model tmp_name) in
     run os_unlink tmp_name then
     shape_result response_format result)
    (transcription_failed tmp_name).

Definition transcribe (req : request) : M response :=
  try_except
    (let* model := get_model in
     match model with
     | None => ret (error_response "Model not loaded" 500)
     | Some mdl =>
         match files_lookup "audio" (files req) with
         | None => ret (error_response "No audio file provided" 400)
         | Some audio_file =>
             if String.eqb (filename audio_file) ""
             then ret (error_response "No audio file selected" 400)
             else
               let response_format :=
                 form_get "response_format" "json" (form req) in
               let* tmp_name := NamedTemporaryFile (tempfile_name E) ".wav" in
               run call (EvSave tmp_name) (save E audio_file tmp_name) then
               transcribe_file mdl tmp_name response_format
         end
     end)
    (fun e =>
     run logger_error ("Request processing error: " ++ exn_msg e) then
     ret (error_response ("Request processing failed: " ++ exn_msg e) 500)).

(** The list in [get_models]. *)
Definition available_models : list string := [
  "tiny"; "tiny.en"; "base"; "base.en";
  "small"; "small.en"; "medium"; "medium.en";
  "large"; "large-v1"; "large-v2"; "large-v3" ].

(** [GET /models].  [attribute obj name] is what [getattr] finds on the
    model object, if anything. *)
Definition get_models (attribute : handle -> string -> option pyval)
    : M response :=
  let* model := get_model in
  let current_model :=
    match model with
    | Some obj =>
        match attribute obj "name" with
        | Some v => v
        | None => PNone
        end
    | None => PNone
    end in
  ret (jsonify (PDict [
    ("models", PList (map PStr available_models));
    ("current_model", current_model) ])).

Definition main : M unit :=
  let* a := (fun w => (parse_args E, w)) in
  let* loaded := load_whisper_model (arg_model a) in
  run (if negb loaded
       then run logger_error "Failed to load Whisper model. Exiting." then
            sys_exit 1
       else ret tt) then
  run logger_info ("Starting Whisper server on " ++ arg_host a ++ ":"
                   ++ pretty (arg_port a)) then
  run logger_info ("Using model: " ++ arg_model a) then
  try_except
    (call (EvAppRun (arg_host a) (arg_port a) (arg_debug a) true) (app_run E a))
    (fun e =>
     run logger_error ("Server error: " ++ exn_msg e) then
     sys_exit 1).

End Server.
End WhisperServer.

(* ===================================================================== *)
(** * Observations and concrete scenarios                                *)
(* ===================================================================== *)

Module Observe.

(** The events a computation adds to the trace when started in [w]. *)
Definition emitted {A} (m : M A) (w : world) : list event :=
  drop (length (trace w)) (trace (snd (m w))).

(** The model names passed to a model constructor, in order. *)
Fixpoint load_attempts (evs : list event) : list string :=
  match evs with
  | [] => []
  | EvLoadModel name :: evs' => name :: load_attempts evs'
  | _ :: evs' => load_attempts evs'
  end.

Definition is_app_run (e : event) : bool :=
  match e with EvAppRun _ _ _ _ => true | _ => false end.

(** [w] with further events on its trace, and nothing else changed. *)
Definition extend (evs : list event) (w : world) : world :=
  {| model := model w; fs := fs w; trace := trace w ++ evs |}.

(** The call made by the speed adjustment of [synthesize], if any, and
    what the adjustment hands on. *)
Definition stretch_events (a : audio) (speed : pyval) : list event :=
  if eq_float_one speed then [] else [EvTimeStretch a speed].

(** A synthesis request that passes the three checks of [synthesize]:
    the model is loaded, the body is an object with a string under ["text"],
    and that string is not blank. *)
Definition accepted (req : TTSServer.request) (w : world) (tts : handle)
    (d : list (string * pyval)) (text : string) : Prop :=
  model w = Some tts /\ TTSServer.get_json req = Returns (PDict d) /\
  dict_lookup "text" d = Some (PStr text) /\ strip text <> "".

(** The first stage of the processing goes through: the temporary name is
    free, the model writes the file, and the file reads back as the
    waveform [a0] at rate [sr]. *)
Definition renders (E : TTSServer.env) (tts : handle) (text : string)
    (w : world) (a0 : audio) (sr : Z) : Prop :=
  let p := TTSServer.tempfile_name E (fs w) ++ ".wav" in
  (p ∉ fs w) /\ TTSServer.tts_to_file E tts text p = Returns tt /\
  TTSServer.sf_read E p = Returns (a0, sr).

(** What the speed adjustment hands on to the encoder. *)
Definition stretched (E : TTSServer.env) (a : audio) (speed : pyval)
    : result audio :=
  if eq_float_one speed then Returns a else TTSServer.time_stretch E a speed.

(** A transcription request that passes the three checks of [transcribe]:
    the model is loaded, there is an ["audio"] part, and its filename is
    not empty. *)
Definition accepted_upload (req : WhisperServer.request) (w : world)
    (mdl : handle) (audio_file : WhisperServer.upload) : Prop :=
  model w = Some mdl /\
  WhisperServer.files_lookup "audio" (WhisperServer.files req)
    = Some audio_file /\
  WhisperServer.filename audio_file <> "".

(** The upload reaches the disk: the temporary name is free and
    [audio_file.save] returns. *)
Definition stored (E : WhisperServer.env) (audio_file : WhisperServer.upload)
    (w : world) : Prop :=
  let p := WhisperServer.tempfile_name E (fs w) ++ ".wav" in
  (p ∉ fs w) /\ WhisperServer.save E audio_file p = Returns tt.

Definition is_log (e : event) : bool :=
  match e with EvLog _ _ => true | _ => false end.

End Observe.
Export Observe.

Module Scenario.

(** ** Synthesis service *)

Definition tts_handle : handle := Handle TTSServer.primary_model "cpu".

(** A process whose model is loaded, with no temporary file on disk. *)
Definition tts_ready : world :=
  {| model := Some tts_handle; fs := ∅; trace := [] |}.

(** A process before [load_tts_model] has run. *)
Definition cold : world := {| model := None; fs := ∅; trace := [] |}.

Definition half : spec_float := S754_finite false 4503599627370496 (-53).
Definition one_and_a_half : spec_float :=
  S754_finite false 6755399441055744 (-52).

Definition riff : bytes := [Byte.x52; Byte.x49; Byte.x46; Byte.x46].

(** Every library call succeeds; the model writes two samples at 22050 Hz
    and the stretch drops one of them. *)
Definition tts_env : TTSServer.env := {|
  TTSServer.cuda_is_available := false;
  TTSServer.TTS := fun name => Returns (Handle name "");
  TTSServer.to_device := fun h d => Returns (Handle (h_model_name h) d);
  TTSServer.tempfile_name := fun _ => "/tmp/tmpq3k1zv8a";
  TTSServer.tts_to_file := fun _ _ _ => Returns tt;
  TTSServer.sf_read := fun _ => Returns ([half; half], 22050);
  TTSServer.time_stretch := fun a _ => Returns (tail a);
  TTSServer.sf_write := fun _ _ => Returns riff;
  TTSServer.parse_args := Ok (Args 8002 "127.0.0.1" "" false);
  TTSServer.app_run := fun _ => Returns tt
|}.

(** The model cannot synthesise the text. *)
Definition tts_env_model_raises : TTSServer.env := {|
  TTSServer.cuda_is_available := false;
  TTSServer.TTS := fun name => Returns (Handle name "");
  TTSServer.to_device := fun h d => Returns (Handle (h_model_name h) d);
  TTSServer.tempfile_name := fun _ => "/tmp/tmpq3k1zv8a";
  TTSServer.tts_to_file := fun _ _ _ =>
    Raises (Exn "RuntimeError" "Kernel size can't be greater than actual input size");
  TTSServer.sf_read := fun _ => Returns ([half; half], 22050);
  TTSServer.time_stretch := fun a _ => Returns (tail a);
  TTSServer.sf_write := fun _ _ => Returns riff;
  TTSServer.parse_args := Ok (Args 8002 "127.0.0.1" "" false);
  TTSServer.app_run := fun _ => Returns tt
|}.

(** No model can be downloaded. *)
Definition tts_env_offline : TTSServer.env := {|
  TTSServer.cuda_is_available := false;
  TTSServer.TTS := fun name => Raises (Exn "ConnectionError" "Max retries exceeded");
  TTSServer.to_device := fun h d => Returns (Handle (h_model_name h) d);
  TTSServer.tempfile_name := fun _ => "/tmp/tmpq3k1zv8a";
  TTSServer.tts_to_file := fun _ _ _ => Returns tt;
  TTSServer.sf_read := fun _ => Returns ([half; half], 22050);
  TTSServer.time_stretch := fun a _ => Returns (tail a);
  TTSServer.sf_write := fun _ _ => Returns riff;
  TTSServer.parse_args := Ok (Args 8002 "127.0.0.1" "" false);
  TTSServer.app_run := fun _ => Returns tt
|}.

Definition body_hello : list (string * pyval) := [("text", PStr "hello")].
Definition body_blank : list (string * pyval) := [("text", PStr "   ")].
Definition body_mp3 : list (string * pyval) :=
  [("text", PStr "hello"); ("response_format", PStr "mp3")].
Definition body_WAV : list (string * pyval) :=
  [("text", PStr "hello"); ("response_format", PStr "WAV")].
Definition body_fast : list (string * pyval) :=
  [("text", PStr "hello"); ("speed", PFloat one_and_a_half)].
Definition body_fast_mp3 : list (string * pyval) :=
  [("text", PStr "hello"); ("response_format", PStr "mp3");
   ("speed", PFloat one_and_a_half)].

Definition post (d : list (string * pyval)) : TTSServer.request :=
  TTSServer.Request (Returns (PDict d)).


(** ** Transcription service *)

Definition stt_handle : handle := Handle "base" "".

Definition stt_ready : world :=
  {| model := Some stt_handle; fs := ∅; trace := [] |}.

(** What Whisper returns: no [duration] key. *)
Definition heard : list (string * pyval) :=
  [("text", PStr " Hello there."); ("segments", PList []);
   ("language", PStr "de")].

Definition stt_env : WhisperServer.env := {|
  WhisperServer.load_model := fun name => Returns (Handle name "");
  WhisperServer.tempfile_name := fun _ => "/tmp/tmp7w0c2m_d";
  WhisperServer.save := fun _ _ => Returns tt;
  WhisperServer.model_transcribe := fun _ _ => Returns (PDict heard);
  WhisperServer.parse_args := Ok (Args 8001 "127.0.0.1" "base" false);
  WhisperServer.app_run := fun _ => Returns tt
|}.

(** The upload is not audio. *)
Definition stt_env_model_raises : WhisperServer.env := {|
  WhisperServer.load_model := fun name => Returns (Handle name "");
  WhisperServer.tempfile_name := fun _ => "/tmp/tmp7w0c2m_d";
  WhisperServer.save := fun _ _ => Returns tt;
  WhisperServer.model_transcribe := fun _ _ =>
    Raises (Exn "RuntimeError" "Failed to load audio");
  WhisperServer.parse_args := Ok (Args 8001 "127.0.0.1" "base" false);
  WhisperServer.app_run := fun _ => Returns tt
|}.

Definition stt_env_offline : WhisperServer.env := {|
  WhisperServer.load_model := fun name =>
    Raises (Exn "RuntimeError" "Model base not found");
  WhisperServer.tempfile_name := fun _ => "/tmp/tmp7w0c2m_d";
  WhisperServer.save := fun _ _ => Returns tt;
  WhisperServer.model_transcribe := fun _ _ => Returns (PDict heard);
  WhisperServer.parse_args := Ok (Args 8001 "127.0.0.1" "base" false);
  WhisperServer.app_run := fun _ => Returns tt
|}.

Definition clip : WhisperServer.upload :=
  WhisperServer.Upload "clip.wav" riff.
Definition unnamed_clip : WhisperServer.upload :=
  WhisperServer.Upload "" [].

Definition upload_default : WhisperServer.request :=
  WhisperServer.Request [("audio", clip)] [].
Definition upload_as_text : WhisperServer.request :=
  WhisperServer.Request [("audio", clip)] [("response_format", "text")].
Definition upload_missing : WhisperServer.request :=
  WhisperServer.Request [] [].
Definition upload_unnamed : WhisperServer.request :=
  WhisperServer.Request [("audio", unnamed_clip)] [].

End Scenario.

(** Further requests and environments, for the properties beyond the
    request/response contract. *)
Module Cases.

(** A body whose text is a number. *)
Definition body_numeric_text : list (string * pyval) := [("text", PInt 5)].

(** A body that is the JSON number 5. *)
Definition post_scalar : TTSServer.request :=
  TTSServer.Request (Returns (PInt 5)).

(** A body Flask cannot decode. *)
Definition post_malformed : TTSServer.request :=
  TTSServer.Request
    (Raises (Exn "BadRequest" "400 Bad Request: Failed to decode JSON object")).

(** The port is taken. *)
Definition tts_env_port_busy : TTSServer.env := {|
  TTSServer.cuda_is_available := true;
  TTSServer.TTS := fun name => Returns (Handle name "");
  TTSServer.to_device := fun h d => Returns (Handle (h_model_name h) d);
  TTSServer.tempfile_name := fun _ => "/tmp/tmpq3k1zv8a";
  TTSServer.tts_to_file := fun _ _ _ => Returns tt;
  TTSServer.sf_read := fun _ => Returns ([Scenario.half], 22050);
  TTSServer.time_stretch := fun a _ => Returns a;
  TTSServer.sf_write := fun _ _ => Returns Scenario.riff;
  TTSServer.parse_args := Ok (Args 8002 "127.0.0.1" "" false);
  TTSServer.app_run := fun _ =>
    Raises (Exn "OSError" "[Errno 98] Address already in use")
|}.

(** The disk is full when the upload is saved. *)
Definition stt_env_disk_full : WhisperServer.env := {|
  WhisperServer.load_model := fun name => Returns (Handle name "");
  WhisperServer.tempfile_name := fun _ => "/tmp/tmp7w0c2m_d";
  WhisperServer.save := fun _ _ =>
    Raises (Exn "OSError" "[Errno 28] No space left on device");
  WhisperServer.model_transcribe := fun _ _ => Returns (PDict Scenario.heard);
  WhisperServer.parse_args := Ok (Args 8001 "127.0.0.1" "base" false);
  WhisperServer.app_run := fun _ => Returns tt
|}.

(** The model's result has no transcript. *)
Definition stt_env_no_text : WhisperServer.env := {|
  WhisperServer.load_model := fun name => Returns (Handle name "");
  WhisperServer.tempfile_name := fun _ => "/tmp/tmp7w0c2m_d";
  WhisperServer.save := fun _ _ => Returns tt;
  WhisperServer.model_transcribe := fun _ _ =>
    Returns (PDict [("language", PStr "en")]);
  WhisperServer.parse_args := Ok (Args 8001 "127.0.0.1" "base" false);
  WhisperServer.app_run := fun _ => Returns tt
|}.

(** The primary model cannot be fetched, the fallback can. *)
Definition tts_env_primary_missing : TTSServer.env := {|
  TTSServer.cuda_is_available := true;
  TTSServer.TTS := fun name =>
    if String.eqb name TTSServer.primary_model
    then Raises (Exn "ValueError" "Model file not found in the output path")
    else Returns (Handle name "");
  TTSServer.to_device := fun h d => Returns (Handle (h_model_name h) d);
  TTSServer.tempfile_name := fun _ => "/tmp/tmpq3k1zv8a";
  TTSServer.tts_to_file := fun _ _ _ => Returns tt;
  TTSServer.sf_read := fun _ => Returns ([Scenario.half], 22050);
  TTSServer.time_stretch := fun a _ => Returns a;
  TTSServer.sf_write := fun _ _ => Returns Scenario.riff;
  TTSServer.parse_args := Ok (Args 8002 "127.0.0.1" "" false);
  TTSServer.app_run := fun _ => Returns tt
|}.

(** The stretch fails on the waveform. *)
Definition tts_env_stretch_raises : TTSServer.env := {|
  TTSServer.cuda_is_available := false;
  TTSServer.TTS := fun name => Returns (Handle name "");
  TTSServer.to_device := fun h d => Returns (Handle (h_model_name h) d);
  TTSServer.tempfile_name := fun _ => "/tmp/tmpq3k1zv8a";
  TTSServer.tts_to_file := fun _ _ _ => Returns tt;
  TTSServer.sf_read := fun _ => Returns ([Scenario.half; Scenario.half], 22050);
  TTSServer.time_stretch := fun _ _ =>
    Raises (Exn "ParameterError" "rate must be a positive number");
  TTSServer.sf_write := fun _ _ => Returns Scenario.riff;
  TTSServer.parse_args := Ok (Args 8002 "127.0.0.1" "" false);
  TTSServer.app_run := fun _ => Returns tt
|}.

(** A model object that carries its name under both attribute names. *)
Definition named_attribute (h : handle) (name : string) : option pyval :=
  if String.eqb name "model_name" || String.eqb name "name"
  then Some (PStr (h_model_name h)) else None.

(** A text of 61 characters. *)
Definition long_text : string :=
  "The quick brown fox jumps over the lazy dog and keeps running".

(** The eight spellings of ["wav"]. *)
Definition wav_spellings : list string :=
  ["wav"; "waV"; "wAv"; "wAV"; "Wav"; "WaV"; "WAv"; "WAV"].

End Cases.

(* ===================================================================== *)
(** * Properties                                                         *)
(* ===================================================================== *)

Local Open Scope string_scope.
Local Open Scope list_scope.

(** ** The trace only grows by what is emitted *)

Section TraceLemmas.

Lemma emitted_of_trace {A} (m : M A) (w : world) (evs : list event) :
  trace (snd (m w)) = trace w ++ evs -> emitted m w = evs.
Proof.
  unfold emitted. intros ->. apply drop_app_length.
Qed.

Lemma emitted_unchanged {A} (m : M A) (w : world) (o : outcome A) :
  m w = (o, w) -> emitted m w = [].
Proof.
  intros Hm. apply emitted_of_trace. rewrite Hm. cbn. now rewrite app_nil_r.
Qed.

Lemma emitted_extend {A} (m : M A) (w : world) (o : outcome A) evs :
  m w = (o, extend evs w) -> emitted m w = evs.
Proof.
  intros Hm. apply emitted_of_trace. now rewrite Hm.
Qed.

Lemma extend_extend (evs1 evs2 : list event) (w : world) :
  extend evs2 (extend evs1 w) = extend (evs1 ++ evs2) w.
Proof.
  unfold extend; cbn. now rewrite app_assoc.
Qed.

Lemma record_is_extend (e : event) (w : world) : record e w = extend [e] w.
Proof. reflexivity. Qed.

Lemma set_fs_extend (F : gset string) evs (w : world) :
  set_fs F (extend evs w) = extend evs (set_fs F w).
Proof. reflexivity. Qed.

Lemma set_fs_same (w : world) evs : set_fs (fs w) (extend evs w) = extend evs w.
Proof. reflexivity. Qed.

Lemma bind_call_returns {A B} (ev : event) (r : result A) (a : A)
    (k : A -> M B) (w : world) :
  r = Returns a -> bind (call ev r) k w = k a (record ev w).
Proof. now intros ->. Qed.

Lemma bind_call_raises {A B} (ev : event) (r : result A) (e : exn)
    (k : A -> M B) (w : world) :
  r = Raises e -> bind (call ev r) k w = (Raise e, record ev w).
Proof. now intros ->. Qed.

Lemma bind_tmp_fresh {B} (pick : gset string -> string) (suffix : string)
    (k : string -> M B) (w : world) :
  pick (fs w) +:+ suffix ∉ fs w ->
  bind (NamedTemporaryFile pick suffix) k w =
    k (pick (fs w) +:+ suffix)
      (set_fs ({[ pick (fs w) +:+ suffix ]} ∪ fs w)
         (record (EvTmpCreate (pick (fs w) +:+ suffix)) w)).
Proof.
  intros Hfresh. unfold bind, NamedTemporaryFile.
  now rewrite (bool_decide_eq_false_2 _ Hfresh).
Qed.

Lemma created_then_unlinked (p : string) (F : gset string) :
  p ∉ F -> ({[ p ]} ∪ F) ∖ {[ p ]} = F.
Proof. set_solver. Qed.

End TraceLemmas.

(** Unfolds the monad and the primitive operations, leaving the library
    calls and the membership tests of the file set to be decided. *)
Ltac py_unfold :=
  unfold logger_info, logger_error, call, str_method, py_get, py_getitem,
    py_contains, NamedTemporaryFile, os_unlink, os_path_exists,
    get_model, put_model, try_except, bind, emit, lift, ret, raise, sys_exit.

Ltac trace_eq :=
  rewrite ?extend_extend; cbn; rewrite <- ?app_assoc; cbn; reflexivity.

Ltac world_eq :=
  cbn; unfold extend, record, set_fs, set_model; cbn;
  rewrite <- ?app_assoc; cbn; try reflexivity.

(** ** The synthesis service *)

Section Synthesis.
Import TTSServer.
Variable E : env.

Lemma render_waveform_outcome (tts : handle) (text : string) (w : world) :
  let p := tempfile_name E (fs w) +:+ ".wav" in
  render_waveform E tts text w =
    if bool_decide (p ∈ fs w)
    then (Raise FileExistsError, extend [EvTmpCreate p] w)
    else
      match tts_to_file E tts text p with
      | Raises e =>
          (Raise e, set_fs ({[ p ]} ∪ fs w)
                      (extend [EvTmpCreate p; EvTtsToFile text p] w))
      | Returns _ =>
          match sf_read E p with
          | Raises e =>
              (Raise e, set_fs ({[ p ]} ∪ fs w)
                          (extend [EvTmpCreate p; EvTtsToFile text p;
                                   EvSfRead p] w))
          | Returns rb =>
              (Ok rb, extend [EvTmpCreate p; EvTtsToFile text p;
                              EvSfRead p; EvUnlink p] w)
          end
      end.
Proof.
  intros p. unfold render_waveform. py_unfold. fold p.
  destruct (bool_decide (p ∈ fs w)) eqn:Hin; [reflexivity|].
  apply bool_decide_eq_false in Hin. cbn.
  destruct (tts_to_file E tts text p) as [u|e]; cbn; [|world_eq].
  destruct (sf_read E p) as [rb|e]; cbn; [|world_eq].
  rewrite bool_decide_eq_true_2 by set_solver.
  world_eq. now rewrite created_then_unlinked.
Qed.

Lemma encode_waveform_outcome (a0 : audio) (sr : Z) (rf speed : pyval)
    (w : world) :
  encode_waveform E a0 sr rf speed w =
    match stretched E a0 speed with
    | Raises e => (Raise e, extend (stretch_events a0 speed) w)
    | Returns a =>
        match rf with
        | PStr fmt =>
            if String.eqb (lower fmt) "wav"
            then
              match sf_write E a sr with
              | Returns b =>
                  (Ok (send_file b "audio/wav" "speech.wav"),
                   extend (stretch_events a0 speed ++ [EvSfWrite a sr]) w)
              | Raises e =>
                  (Raise e,
                   extend (stretch_events a0 speed ++ [EvSfWrite a sr]) w)
              end
            else (Ok (error_response ("Unsupported format: " +:+ fmt) 400),
                  extend (stretch_events a0 speed) w)
        | _ => (Raise (AttributeError rf "lower"),
                extend (stretch_events a0 speed) w)
        end
    end.
Proof.
  unfold encode_waveform, stretched, stretch_events. py_unfold.
  assert (Hnil : forall w0, w0 = extend [] w0)
    by (intros [m f t]; unfold extend; cbn; now rewrite app_nil_r).
  destruct (eq_float_one speed); cbn.
  - destruct rf; cbn; try apply f_equal, Hnil.
    destruct (String.eqb (lower s) "wav"); cbn; [|apply f_equal, Hnil].
    destruct (sf_write E a0 sr); reflexivity.
  - destruct (time_stretch E a0 speed) as [a|e]; cbn; [|reflexivity].
    destruct rf; cbn; try reflexivity.
    destruct (String.eqb (lower s) "wav"); cbn; [|reflexivity].
    destruct (sf_write E a sr); cbn; world_eq.
Qed.

(** The inner [try] turns whatever the two stages raise into a 500. *)
Lemma generate_speech_outcome (tts : handle) (text : string)
    (rf speed : pyval) (w : world) :
  generate_speech E tts text rf speed w =
    let failed e w' :=
      (Ok (error_response ("Speech synthesis failed: " +:+ exn_msg e) 500),
       extend [EvLog ERROR ("Speech synthesis error: " +:+ exn_msg e)] w') in
    match render_waveform E tts text w with
    | (Ok rb, w1) =>
        match encode_waveform E (fst rb) (snd rb) rf speed w1 with
        | (Raise e, w2) => failed e w2
        | r => r
        end
    | (Raise e, w1) => failed e w1
    | (Exit c, w1) => (Exit c, w1)
    end.
Proof.
  unfold generate_speech, try_except, bind at 1.
  destruct (render_waveform E tts text w) as [[rb|e|c] w1]; reflexivity.
Qed.

(** When the file was created, written and read back, what remains is the
    encoder, started after the four file events. *)
Lemma generate_speech_processed (tts : handle) (text : string)
    (rf speed : pyval) (w : world) (a0 : audio) (sr : Z) :
  let p := tempfile_name E (fs w) +:+ ".wav" in
  p ∉ fs w ->
  tts_to_file E tts text p = Returns tt ->
  sf_read E p = Returns (a0, sr) ->
  generate_speech E tts text rf speed w =
    match encode_waveform E a0 sr rf speed
            (extend [EvTmpCreate p; EvTtsToFile text p; EvSfRead p; EvUnlink p] w)
    with
    | (Raise e, w2) =>
        (Ok (error_response ("Speech synthesis failed: " +:+ exn_msg e) 500),
         extend [EvLog ERROR ("Speech synthesis error: " +:+ exn_msg e)] w2)
    | r => r
    end.
Proof.
  intros p Hfresh Hsynth Hread.
  rewrite generate_speech_outcome, render_waveform_outcome. fold p.
  rewrite (bool_decide_eq_false_2 _ Hfresh), Hsynth, Hread. reflexivity.
Qed.

(** The inner [try] always ends in a response, and the first thing it
    does is ask for the temporary file. *)
Lemma generate_speech_total (tts : handle) (text : string)
    (rf speed : pyval) (w : world) :
  exists r evs F,
    generate_speech E tts text rf speed w =
      (Ok r, set_fs F (extend (EvTmpCreate (tempfile_name E (fs w) +:+ ".wav")
                               :: evs) w)).
Proof.
  rewrite generate_speech_outcome, render_waveform_outcome.
  set (p := tempfile_name E (fs w) +:+ ".wav"). cbv zeta.
  destruct (bool_decide (p ∈ fs w)).
  { eexists _, _, (fs w). rewrite set_fs_same, extend_extend. reflexivity. }
  destruct (tts_to_file E tts text p) as [u|e].
  2:{ eexists _, _, _. rewrite <- set_fs_extend, extend_extend. reflexivity. }
  destruct (sf_read E p) as [[a0 sr]|e].
  2:{ eexists _, _, _. rewrite <- set_fs_extend, extend_extend. reflexivity. }
  rewrite encode_waveform_outcome. cbn [fst snd].
  destruct (stretched E a0 speed) as [a|e].
  2:{ eexists _, _, (fs w). rewrite set_fs_same, !extend_extend. reflexivity. }
  destruct rf;
    try (eexists _, _, (fs w); rewrite set_fs_same, !extend_extend; reflexivity).
  destruct (String.eqb (lower s) "wav").
  2:{ eexists _, _, (fs w). rewrite set_fs_same, !extend_extend. reflexivity. }
  destruct (sf_write E a sr);
    eexists _, _, (fs w); rewrite set_fs_same, !extend_extend; reflexivity.
Qed.

(** A request that passes the three checks is handed to the inner [try]
    with its text, its format (default ["wav"]) and its speed (default
    [1.0]), after one log line. *)
Lemma synthesize_validated (req : request) (w : world) (tts : handle)
    (d : list (string * pyval)) (text : string) :
  accepted req w tts d text ->
  synthesize E req w =
    generate_speech E tts text
      (dict_get "response_format" (PStr "wav") d)
      (dict_get "speed" (PFloat float_one) d)
      (extend [EvLog INFO (synthesizing_message text)] w).
Proof.
  intros (Hm & Hj & Ht & Hs).
  assert (Hd : match d with [] => false | _ :: _ => true end = true)
    by (destruct d; [discriminate|easy]).
  assert (Hne : str_empty (strip text) = false)
    by (destruct (strip text); [congruence|easy]).
  destruct (generate_speech_total tts text
              (dict_get "response_format" (PStr "wav") d)
              (dict_get "speed" (PFloat float_one) d)
              (extend [EvLog INFO (synthesizing_message text)] w))
    as (r & evs & F & HG).
  rewrite HG. unfold synthesize. py_unfold. rewrite Hm, Hj. cbn.
  rewrite Hd. cbn. rewrite Ht. cbn. rewrite Hne.
  fold (extend [EvLog INFO (synthesizing_message text)] w).
  change (record ?e ?w0) with (extend [e] w0). rewrite HG. reflexivity.
Qed.


End Synthesis.



(** ** The processing stage of [synthesize], path by path *)

Section SynthesisPaths.
Import TTSServer.
Variable E : env.
Variables (req : request) (w : world) (tts : handle).
Variables (d : list (string * pyval)) (text : string).
Hypothesis Hacc : accepted req w tts d text.

Let p : string := tempfile_name E (fs w) +:+ ".wav".
Let rf : pyval := dict_get "response_format" (PStr "wav") d.
Let speed : pyval := dict_get "speed" (PFloat float_one) d.
Let announced : event := EvLog INFO (synthesizing_message text).

(** The 500 of the inner [except], and its log record. *)
Let failed (e : exn) : response :=
  error_response ("Speech synthesis failed: " +:+ exn_msg e) 500.
Let failure (e : exn) : event :=
  EvLog ERROR ("Speech synthesis error: " +:+ exn_msg e).

Lemma synthesize_name_taken :
  p ∈ fs w ->
  synthesize E req w =
    (Ok (failed FileExistsError),
     extend [announced; EvTmpCreate p; failure FileExistsError] w).
Proof.
  intros Hin. rewrite (synthesize_validated E req w tts d text Hacc).
  rewrite generate_speech_outcome, render_waveform_outcome. cbn [fs extend].
  fold p. rewrite (bool_decide_eq_true_2 _ Hin). cbv zeta.
  now rewrite !extend_extend.
Qed.

(** The model raises: the 500 is returned and the file is still there. *)
Lemma synthesize_model_raises (e : exn) :
  p ∉ fs w ->
  tts_to_file E tts text p = Raises e ->
  synthesize E req w =
    (Ok (failed e),
     set_fs ({[ p ]} ∪ fs w)
       (extend [announced; EvTmpCreate p; EvTtsToFile text p; failure e] w)).
Proof.
  intros Hfresh Hsynth. rewrite (synthesize_validated E req w tts d text Hacc).
  rewrite generate_speech_outcome, render_waveform_outcome. cbn [fs extend].
  fold p. rewrite (bool_decide_eq_false_2 _ Hfresh), Hsynth. cbv zeta.
  world_eq.
Qed.

(** Reading the file back raises: again the file is still there. *)
Lemma synthesize_read_raises (e : exn) :
  p ∉ fs w ->
  tts_to_file E tts text p = Returns tt ->
  sf_read E p = Raises e ->
  synthesize E req w =
    (Ok (failed e),
     set_fs ({[ p ]} ∪ fs w)
       (extend [announced; EvTmpCreate p; EvTtsToFile text p; EvSfRead p;
                failure e] w)).
Proof.
  intros Hfresh Hsynth Hread.
  rewrite (synthesize_validated E req w tts d text Hacc).
  rewrite generate_speech_outcome, render_waveform_outcome. cbn [fs extend].
  fold p. rewrite (bool_decide_eq_false_2 _ Hfresh), Hsynth, Hread. cbv zeta.
  world_eq.
Qed.

(** The file was written and read back: it is gone again, and the rest is
    decided by the speed adjustment, the format and the encoder. *)
Lemma synthesize_rendered (a0 : audio) (sr : Z) :
  renders E tts text w a0 sr ->
  synthesize E req w =
    let done := [announced; EvTmpCreate p; EvTtsToFile text p; EvSfRead p;
                 EvUnlink p] ++ stretch_events a0 speed in
    match stretched E a0 speed with
    | Raises e => (Ok (failed e), extend (done ++ [failure e]) w)
    | Returns a =>
        match rf with
        | PStr fmt =>
            if String.eqb (lower fmt) "wav"
            then
              match sf_write E a sr with
              | Returns b =>
                  (Ok (send_file b "audio/wav" "speech.wav"),
                   extend (done ++ [EvSfWrite a sr]) w)
              | Raises e =>
                  (Ok (failed e),
                   extend (done ++ [EvSfWrite a sr; failure e]) w)
              end
            else (Ok (error_response ("Unsupported format: " +:+ fmt) 400),
                  extend done w)
        | _ =>
            (Ok (failed (AttributeError rf "lower")),
             extend (done ++ [failure (AttributeError rf "lower")]) w)
        end
    end.
Proof.
  intros (Hfresh & Hsynth & Hread).
  rewrite (synthesize_validated E req w tts d text Hacc).
  fold rf speed announced.
  rewrite (generate_speech_processed E tts text rf speed
             (extend [announced] w) a0 sr Hfresh Hsynth Hread).
  rewrite encode_waveform_outcome. cbn [fs extend]. fold p rf speed. cbv zeta.
  destruct (stretched E a0 speed) as [a|e].
  2:{ trace_eq. }
  destruct rf as [ |b|z|f|fmt|l|d']; try trace_eq.
  destruct (String.eqb (lower fmt) "wav"); [|trace_eq].
  destruct (sf_write E a sr); trace_eq.
Qed.

(** Either the first stage goes through, or the request ends in a 500. *)
Lemma synthesize_rendered_or_failed :
  (exists a0 sr, renders E tts text w a0 sr)
  \/ (exists e w', synthesize E req w = (Ok (failed e), w')).
Proof.
  destruct (decide (p ∈ fs w)) as [Hin|Hfresh].
  { right. rewrite (synthesize_name_taken Hin). eauto. }
  destruct (tts_to_file E tts text p) as [[]|e] eqn:Hsynth.
  2:{ right. rewrite (synthesize_model_raises e Hfresh Hsynth). eauto. }
  destruct (sf_read E p) as [[a0 sr]|e] eqn:Hread.
  2:{ right. rewrite (synthesize_read_raises e Hfresh Hsynth Hread). eauto. }
  left. exists a0, sr. repeat split; assumption.
Qed.

End SynthesisPaths.

(** Once the waveform is read back the temporary file is gone, however
    the request then ends. *)
Lemma synthesize_rendered_removes_file (E : TTSServer.env)
    (req : TTSServer.request) (w : world) (tts : handle)
    (d : list (string * pyval)) (text : string) (a0 : audio) (sr : Z) :
  accepted req w tts d text ->
  renders E tts text w a0 sr ->
  fs (snd (TTSServer.synthesize E req w)) = fs w
  /\ TTSServer.tempfile_name E (fs w) +:+ ".wav"
       ∉ fs (snd (TTSServer.synthesize E req w)).
Proof.
  intros Hacc Hren.
  assert (Hfs : fs (snd (TTSServer.synthesize E req w)) = fs w).
  { rewrite (synthesize_rendered E req w tts d text Hacc a0 sr Hren). cbv zeta.
    destruct (stretched E a0 _); [|reflexivity].
    destruct (dict_get "response_format" _ d); try reflexivity.
    destruct (String.eqb _ _); [|reflexivity].
    destruct (TTSServer.sf_write E _ _); reflexivity. }
  split; [exact Hfs|]. rewrite Hfs. apply Hren.
Qed.

(** C1 (where the code departs from it).  The temporary file of a
    synthesis request is not removed on every exit path: when the model's
    [tts_to_file] raises, the handler answers 500 and the file it created is
    still on disk, no [os.unlink] having been called.  Shown on the request
    [{"text": "hello"}] against a model that raises. *)
Theorem synthesize_leaves_temp_file_when_model_raises :
  let p := "/tmp/tmpq3k1zv8a.wav" in
  let out := TTSServer.synthesize Scenario.tts_env_model_raises
               (Scenario.post Scenario.body_hello) Scenario.tts_ready in
  (p ∉ fs Scenario.tts_ready)
  /\ fst out =
       Ok (error_response
             "Speech synthesis failed: Kernel size can't be greater than actual input size"
             500)
  /\ p ∈ fs (snd out)
  /\ trace (snd out) =
       [EvLog INFO "Synthesizing text: 'hello'";
        EvTmpCreate p;
        EvTtsToFile "hello" p;
        EvLog ERROR
          "Speech synthesis error: Kernel size can't be greater than actual input size"].
Proof.
  intros p out.
  assert (Hacc : accepted (Scenario.post Scenario.body_hello) Scenario.tts_ready
                   Scenario.tts_handle Scenario.body_hello "hello").
  { repeat split; try reflexivity. vm_compute. discriminate. }
  assert (Hfresh : p ∉ fs Scenario.tts_ready) by (cbn; set_solver).
  pose proof (synthesize_model_raises Scenario.tts_env_model_raises _ _ _ _ _
                Hacc _ Hfresh eq_refl) as Hout.
  fold out in Hout. rewrite Hout.
  split; [exact Hfresh|]. split; [reflexivity|]. split; [|reflexivity].
  cbn -[elem_of union singleton]. set_solver.
Qed.

(** C4 as stated fails: ["WAV"] is not the value ["wav"], and the request
    is served with status 200, not refused with 400. *)
Lemma synthesize_serves_uppercase_WAV :
  dict_get "response_format" (PStr "wav") Scenario.body_WAV = PStr "WAV"
  /\ "WAV" <> "wav"
  /\ fst (TTSServer.synthesize Scenario.tts_env
            (Scenario.post Scenario.body_WAV) Scenario.tts_ready)
     = Ok (send_file Scenario.riff "audio/wav" "speech.wav")
  /\ status (send_file Scenario.riff "audio/wav" "speech.wav") = 200
  /\ status (send_file Scenario.riff "audio/wav" "speech.wav") <> 400.
Proof.
  split; [reflexivity|]. split; [discriminate|].
  split; [vm_compute; reflexivity|]. split; [reflexivity|discriminate].
Qed.

(** C4, amended.  For a request with a loaded model and non-blank text
    whose processing stage goes through, the format (["wav"] when the field
    is absent) is compared after lower-casing: a string whose lower-case
    form is ["wav"] is answered with status 200 and a WAV attachment named
    ["speech.wav"]; every other string is answered with status 400 and an
    error body naming the format. *)
Theorem synthesize_format_by_lowercase (E : TTSServer.env)
    (req : TTSServer.request) (w : world) (tts : handle)
    (d : list (string * pyval)) (text fmt : string) (a0 a : audio) (sr : Z) :
  accepted req w tts d text ->
  dict_get "response_format" (PStr "wav") d = PStr fmt ->
  renders E tts text w a0 sr ->
  stretched E a0 (dict_get "speed" (PFloat float_one) d) = Returns a ->
  (lower fmt <> "wav" ->
     exists r, fst (TTSServer.synthesize E req w) = Ok r
       /\ status r = 400
       /\ payload r =
            JsonBody (PDict [("error", PStr ("Unsupported format: " +:+ fmt))]))
  /\ (lower fmt = "wav" -> forall b,
        TTSServer.sf_write E a sr = Returns b ->
        exists r, fst (TTSServer.synthesize E req w) = Ok r
          /\ status r = 200 /\ content_type r = "audio/wav"
          /\ payload r = FileBody b /\ download_name r = Some "speech.wav")
  /\ (dict_lookup "response_format" d = None -> fmt = "wav").
Proof.
  intros Hacc Hfmt Hren Hstr.
  rewrite (synthesize_rendered E req w tts d text Hacc a0 sr Hren). cbv zeta.
  rewrite Hstr, Hfmt. repeat split.
  - intros Hl. apply String.eqb_neq in Hl. rewrite Hl. eexists. cbn. eauto.
  - intros Hl b Hb. apply String.eqb_eq in Hl. rewrite Hl, Hb.
    eexists. cbn. eauto 6.
  - intros Hnone. unfold dict_get in Hfmt. rewrite Hnone in Hfmt. congruence.
Qed.

Lemma synthesize_format_by_lowercase_witness :
  (exists r, fst (TTSServer.synthesize Scenario.tts_env
                    (Scenario.post Scenario.body_mp3) Scenario.tts_ready) = Ok r
     /\ status r = 400
     /\ payload r = JsonBody (PDict [("error", PStr "Unsupported format: mp3")]))
  /\ (exists r, fst (TTSServer.synthesize Scenario.tts_env
                       (Scenario.post Scenario.body_WAV) Scenario.tts_ready) = Ok r
        /\ status r = 200 /\ content_type r = "audio/wav"
        /\ payload r = FileBody Scenario.riff
        /\ download_name r = Some "speech.wav").
Proof.
  split.
  - apply (synthesize_format_by_lowercase Scenario.tts_env
             (Scenario.post Scenario.body_mp3) Scenario.tts_ready
             Scenario.tts_handle Scenario.body_mp3 "hello" "mp3"
             [Scenario.half; Scenario.half] [Scenario.half; Scenario.half] 22050).
    + repeat split; try reflexivity. vm_compute. discriminate.
    + reflexivity.
    + repeat split; try reflexivity. cbn. set_solver.
    + reflexivity.
    + vm_compute. discriminate.
  - apply (synthesize_format_by_lowercase Scenario.tts_env
             (Scenario.post Scenario.body_WAV) Scenario.tts_ready
             Scenario.tts_handle Scenario.body_WAV "hello" "WAV"
             [Scenario.half; Scenario.half] [Scenario.half; Scenario.half] 22050).
    + repeat split; try reflexivity. vm_compute. discriminate.
    + reflexivity.
    + repeat split; try reflexivity. cbn. set_solver.
    + reflexivity.
    + reflexivity.
    + reflexivity.
Defined.





(** C10.  When an accepted synthesis request is answered with status 400,
    the whole processing stage has run by then: the temporary file was
    created, the model wrote to it, the waveform was read back, the file
    was removed, and the speed adjustment (if any) returned; the trace holds
    exactly these calls, in this order, and the file is no longer on disk.
    The 400 is the answer to a string format whose lower-case form is not
    ["wav"]. *)
Theorem unsupported_format_answered_after_processing (E : TTSServer.env)
    (req : TTSServer.request) (w : world) (tts : handle)
    (d : list (string * pyval)) (text : string)
    (r : response) (w' : world) :
  accepted req w tts d text ->
  TTSServer.synthesize E req w = (Ok r, w') ->
  status r = 400 ->
  let p := TTSServer.tempfile_name E (fs w) +:+ ".wav" in
  let speed := dict_get "speed" (PFloat float_one) d in
  exists fmt a0 sr a,
    dict_get "response_format" (PStr "wav") d = PStr fmt
    /\ lower fmt <> "wav"
    /\ r = error_response ("Unsupported format: " +:+ fmt) 400
    /\ renders E tts text w a0 sr
    /\ stretched E a0 speed = Returns a
    /\ trace w' =
         trace w ++ [EvLog INFO (TTSServer.synthesizing_message text);
                     EvTmpCreate p; EvTtsToFile text p; EvSfRead p; EvUnlink p]
                 ++ stretch_events a0 speed
    /\ fs w' = fs w
    /\ p ∉ fs w'.
Proof.
  intros Hacc Hout Hst p speed.
  destruct (synthesize_rendered_or_failed E req w tts d text Hacc)
    as [(a0 & sr & Hren)|(e & w1 & Hfail)].
  2:{ rewrite Hfail in Hout. simplify_eq; try discriminate. }
  rewrite (synthesize_rendered E req w tts d text Hacc a0 sr Hren) in Hout.
  cbv zeta in Hout. fold speed p in Hout.
  destruct (stretched E a0 speed) as [a|e] eqn:Hstr;
    [|simplify_eq; try discriminate].
  destruct (dict_get "response_format" (PStr "wav") d) as [ |b|z|f|fmt|l|d'];
    try (simplify_eq; try discriminate; fail).
  destruct (String.eqb (lower fmt) "wav") eqn:Hl.
  { destruct (TTSServer.sf_write E a sr); simplify_eq; try discriminate. }
  simplify_eq. exists fmt, a0, sr, a.
  apply String.eqb_neq in Hl.
  repeat split; try assumption; try apply Hren.
Qed.

Lemma unsupported_format_answered_after_processing_witness :
  let p := "/tmp/tmpq3k1zv8a.wav" in
  exists w' a0 sr a,
    TTSServer.synthesize Scenario.tts_env
      (Scenario.post Scenario.body_fast_mp3) Scenario.tts_ready
      = (Ok (error_response "Unsupported format: mp3" 400), w')
    /\ renders Scenario.tts_env Scenario.tts_handle "hello"
         Scenario.tts_ready a0 sr
    /\ stretched Scenario.tts_env a0 (PFloat Scenario.one_and_a_half)
         = Returns a
    /\ trace w' =
         [EvLog INFO "Synthesizing text: 'hello'";
          EvTmpCreate p; EvTtsToFile "hello" p; EvSfRead p; EvUnlink p;
          EvTimeStretch a0 (PFloat Scenario.one_and_a_half)]
    /\ p ∉ fs w'.
Proof.
  intros p.
  assert (Hacc : accepted (Scenario.post Scenario.body_fast_mp3)
                   Scenario.tts_ready Scenario.tts_handle
                   Scenario.body_fast_mp3 "hello").
  { repeat split; try reflexivity. vm_compute. discriminate. }
  assert (Hren : renders Scenario.tts_env Scenario.tts_handle "hello"
                   Scenario.tts_ready [Scenario.half; Scenario.half] 22050).
  { repeat split; try reflexivity. cbn. set_solver. }
  pose proof (synthesize_rendered Scenario.tts_env _ _ _ _ _ Hacc _ _ Hren)
    as Hout.
  destruct (unsupported_format_answered_after_processing Scenario.tts_env
              (Scenario.post Scenario.body_fast_mp3) Scenario.tts_ready
              Scenario.tts_handle Scenario.body_fast_mp3 "hello" _ _
              Hacc Hout eq_refl)
    as (fmt & a0 & sr & a & Hf & _ & _ & Hren' & Hstr & Htr & _ & Hgone).
  eexists _, a0, sr, a.
  split; [exact Hout|]. split; [exact Hren'|]. split; [exact Hstr|].
  split; [|exact Hgone].
  rewrite Htr. destruct Hren' as (_ & _ & Hread). cbn in Hread.
  injection Hread as <- <-. reflexivity.
Defined.

(** ** The transcription service *)

Section Transcription.
Import WhisperServer.
Variable E : env.

(** Shaping the result touches nothing: its outcome is the same in every
    world and the world is handed back. *)
Lemma shape_result_frame (fmt : string) (result : pyval) (w w0 : world) :
  shape_result fmt result w = (fst (shape_result fmt result w0), w).
Proof.
  unfold shape_result. py_unfold.
  destruct (String.eqb fmt "json"); destruct result; cbn; try reflexivity;
    destruct (dict_lookup "text" d); reflexivity.
Qed.

Lemma shape_result_never_exits (fmt : string) (result : pyval) (w : world) :
  forall c, fst (shape_result fmt result w) <> Exit c.
Proof.
  intros c. unfold shape_result. py_unfold.
  destruct (String.eqb fmt "json"); destruct result; cbn; try discriminate;
    destruct (dict_lookup "text" d); discriminate.
Qed.

(** The result is a dictionary with a transcript. *)
Lemma shape_result_of_dict (fmt : string) (rd : list (string * pyval))
    (t : pyval) (w : world) :
  dict_lookup "text" rd = Some t ->
  shape_result fmt (PDict rd) w =
    (Ok (if String.eqb fmt "json"
         then jsonify (PDict [ ("text", t);
                               ("language", dict_get "language" (PStr "en") rd);
                               ("duration", dict_get "duration" (PInt 0) rd);
                               ("segments", dict_get "segments" (PList []) rd) ])
         else raw_response t 200 "text/plain"), w).
Proof.
  intros Ht. unfold shape_result. py_unfold.
  destruct (String.eqb fmt "json"); cbn; now rewrite Ht.
Qed.

(** The inner [try], run while the temporary file exists. *)
Lemma transcribe_file_outcome (mdl : handle) (p fmt : string) (w : world) :
  p ∈ fs w ->
  transcribe_file E mdl p fmt w =
    let started :=
      [EvLog INFO ("Transcribing audio file: " +:+ p); EvTranscribe p] in
    let failed e :=
      error_response ("Transcription failed: " +:+ exn_msg e) 500 in
    let failure e := EvLog ERROR ("Transcription error: " +:+ exn_msg e) in
    match model_transcribe E mdl p with
    | Raises e =>
        (Ok (failed e),
         set_fs (fs w ∖ {[ p ]})
           (extend (started ++ [failure e; EvUnlink p]) w))
    | Returns result =>
        match fst (shape_result fmt result w) with
        | Ok r =>
            (Ok r, set_fs (fs w ∖ {[ p ]})
                     (extend (started ++ [EvUnlink p]) w))
        | Raise e =>
            (Ok (failed e),
             set_fs (fs w ∖ {[ p ]})
               (extend (started ++ [EvUnlink p; failure e]) w))
        | Exit c =>
            (Exit c, set_fs (fs w ∖ {[ p ]})
                       (extend (started ++ [EvUnlink p]) w))
        end
    end.
Proof.
  intros Hin. unfold transcribe_file, transcription_failed.
  unfold try_except, bind, call, emit, lift, ret, raise, logger_info,
    logger_error, os_unlink, os_path_exists. cbn.
  destruct (model_transcribe E mdl p) as [result|e]; cbn.
  - rewrite (bool_decide_eq_true_2 _ Hin).
    rewrite (shape_result_frame fmt result _ w).
    destruct (fst (shape_result fmt result w)) as [r|e|c]; cbn.
    + world_eq.
    + rewrite bool_decide_eq_false_2 by set_solver. world_eq.
    + world_eq.
  - rewrite (bool_decide_eq_true_2 _ Hin). cbn.
    rewrite (bool_decide_eq_true_2 _ Hin). world_eq.
Qed.

Section Paths.
Variables (req : request) (w : world) (mdl : handle) (audio_file : upload).
Hypothesis Hacc : accepted_upload req w mdl audio_file.

Let p : string := tempfile_name E (fs w) +:+ ".wav".
Let fmt : string := form_get "response_format" "json" (form req).

(** The 500 of the outer [except], and its log record. *)
Let rejected (e : exn) : response :=
  error_response ("Request processing failed: " +:+ exn_msg e) 500.
Let rejection (e : exn) : event :=
  EvLog ERROR ("Request processing error: " +:+ exn_msg e).

Lemma transcribe_accepted :
  transcribe E req w =
    try_except
      (let* tmp_name := NamedTemporaryFile (tempfile_name E) ".wav" in
       run call (EvSave tmp_name) (save E audio_file tmp_name) then
       transcribe_file E mdl tmp_name fmt)%py
      (fun e => run logger_error ("Request processing error: " +:+ exn_msg e)
                then ret (rejected e))%py
      w.
Proof.
  destruct Hacc as (Hm & Hf & Hn). apply String.eqb_neq in Hn.
  unfold transcribe, try_except, bind at 1, get_model. rewrite Hm, Hf, Hn.
  reflexivity.
Qed.

Lemma transcribe_name_taken :
  p ∈ fs w ->
  transcribe E req w =
    (Ok (rejected FileExistsError),
     extend [EvTmpCreate p; rejection FileExistsError] w).
Proof.
  intros Hin. rewrite transcribe_accepted. py_unfold. fold p.
  rewrite (bool_decide_eq_true_2 _ Hin). world_eq.
Qed.

(** Saving the upload raises: the outer [except] answers, and the file
    created for the request stays on disk. *)
Lemma transcribe_save_raises (e : exn) :
  p ∉ fs w ->
  save E audio_file p = Raises e ->
  transcribe E req w =
    (Ok (rejected e),
     set_fs ({[ p ]} ∪ fs w)
       (extend [EvTmpCreate p; EvSave p; rejection e] w)).
Proof.
  intros Hfresh Hsave. rewrite transcribe_accepted. py_unfold. fold p.
  rewrite (bool_decide_eq_false_2 _ Hfresh). cbn. rewrite Hsave. world_eq.
Qed.

(** The upload is on disk: the model is called, and on every path the
    file is removed again. *)
Lemma transcribe_stored :
  stored E audio_file w ->
  transcribe E req w =
    let head := [EvTmpCreate p; EvSave p;
                 EvLog INFO ("Transcribing audio file: " +:+ p);
                 EvTranscribe p] in
    let failed e :=
      error_response ("Transcription failed: " +:+ exn_msg e) 500 in
    let failure e := EvLog ERROR ("Transcription error: " +:+ exn_msg e) in
    match model_transcribe E mdl p with
    | Raises e => (Ok (failed e), extend (head ++ [failure e; EvUnlink p]) w)
    | Returns result =>
        match fst (shape_result fmt result w) with
        | Ok r => (Ok r, extend (head ++ [EvUnlink p]) w)
        | Raise e =>
            (Ok (failed e), extend (head ++ [EvUnlink p; failure e]) w)
        | Exit c => (Exit c, extend (head ++ [EvUnlink p]) w)
        end
    end.
Proof.
  intros (Hfresh & Hsave). rewrite transcribe_accepted.
  unfold try_except. rewrite bind_tmp_fresh by exact Hfresh. fold p.
  rewrite (bind_call_returns _ _ tt) by exact Hsave.
  rewrite transcribe_file_outcome by (cbn; set_solver). cbv zeta.
  destruct (model_transcribe E mdl p) as [result|e].
  - rewrite (shape_result_frame fmt result _ w). cbn [fst].
    destruct (fst (shape_result fmt result w)) as [r|e|c];
      world_eq; now rewrite created_then_unlinked.
  - world_eq. now rewrite created_then_unlinked.
Qed.

(** Every accepted request asks for the temporary file first. *)
Lemma transcribe_total :
  exists o evs F,
    transcribe E req w = (o, set_fs F (extend (EvTmpCreate p :: evs) w)).
Proof.
  destruct (decide (p ∈ fs w)) as [Hin|Hfresh].
  { rewrite (transcribe_name_taken Hin). eexists _, _, (fs w). reflexivity. }
  destruct (save E audio_file p) as [[]|e] eqn:Hsave.
  2:{ rewrite (transcribe_save_raises e Hfresh Hsave). eauto. }
  rewrite (transcribe_stored (conj Hfresh Hsave)). cbv zeta.
  destruct (model_transcribe E mdl p) as [result|e].
  - destruct (fst (shape_result fmt result w));
      eexists _, _, (fs w); reflexivity.
  - eexists _, _, (fs w); reflexivity.
Qed.

End Paths.

(** Every other request is answered at once, with no event at all. *)
Lemma transcribe_cases (req : request) (w : world) :
  (exists mdl audio_file, accepted_upload req w mdl audio_file)
  \/ (exists r, transcribe E req w = (Ok r, w)).
Proof.
  destruct (model w) as [mdl|] eqn:Hm.
  2:{ right. unfold transcribe. py_unfold. rewrite Hm. eauto. }
  destruct (files_lookup "audio" (files req)) as [u|] eqn:Hf.
  2:{ right. unfold transcribe. py_unfold. rewrite Hm, Hf. eauto. }
  destruct (String.eqb (filename u) "") eqn:Hn.
  { right. unfold transcribe. py_unfold. rewrite Hm, Hf, Hn. eauto. }
  left. exists mdl, u. apply String.eqb_neq in Hn. now repeat split.
Qed.

End Transcription.

(** C2.  Once the upload of a transcription request is on disk, the
    temporary file is gone when the handler returns, whatever the model
    does.  When the model returns, the file is removed right after the
    call.  When [model.transcribe] raises, the [except] clause logs the
    error, removes the file itself, and answers 500 with the exception
    message in the error body. *)
Theorem transcribe_removes_temp_file (E : WhisperServer.env)
    (req : WhisperServer.request) (w : world) (mdl : handle)
    (audio_file : WhisperServer.upload) :
  accepted_upload req w mdl audio_file ->
  stored E audio_file w ->
  let p := WhisperServer.tempfile_name E (fs w) +:+ ".wav" in
  let out := WhisperServer.transcribe E req w in
  let head := [EvTmpCreate p; EvSave p;
               EvLog INFO ("Transcribing audio file: " +:+ p);
               EvTranscribe p] in
  (p ∉ fs (snd out))
  /\ fs (snd out) = fs w
  /\ (forall result,
        WhisperServer.model_transcribe E mdl p = Returns result ->
        exists rest,
          emitted (WhisperServer.transcribe E req) w
            = head ++ EvUnlink p :: rest
          /\ forallb is_log rest = true)
  /\ (forall e,
        WhisperServer.model_transcribe E mdl p = Raises e ->
        fst out =
          Ok (error_response ("Transcription failed: " +:+ exn_msg e) 500)
        /\ emitted (WhisperServer.transcribe E req) w
           = head ++ [EvLog ERROR ("Transcription error: " +:+ exn_msg e);
                      EvUnlink p]).
Proof.
  intros Hacc Hsto p out head.
  pose proof (transcribe_stored E req w mdl audio_file Hacc Hsto) as Hout.
  cbv zeta in Hout. fold p out head in Hout.
  assert (Hfs : fs (snd out) = fs w).
  { rewrite Hout.
    destruct (WhisperServer.model_transcribe E mdl p) as [result|e];
      [|reflexivity].
    destruct (fst (WhisperServer.shape_result _ result w)); reflexivity. }
  split; [rewrite Hfs; apply Hsto|]. split; [exact Hfs|]. split.
  - intros result Hres. unfold out in Hout. rewrite Hres in Hout.
    destruct (fst (WhisperServer.shape_result _ result w)).
    + exists []. now rewrite (emitted_extend _ _ _ _ Hout).
    + eexists [_]. now rewrite (emitted_extend _ _ _ _ Hout).
    + exists []. now rewrite (emitted_extend _ _ _ _ Hout).
  - intros e Hres. rewrite Hout. unfold out in Hout. rewrite Hres in Hout.
    rewrite Hres. split; [reflexivity|].
    now rewrite (emitted_extend _ _ _ _ Hout).
Qed.

Lemma transcribe_removes_temp_file_witness :
  let p := "/tmp/tmp7w0c2m_d.wav" in
  (p ∉ fs (snd (WhisperServer.transcribe Scenario.stt_env
                  Scenario.upload_default Scenario.stt_ready)))
  /\ (p ∉ fs (snd (WhisperServer.transcribe Scenario.stt_env_model_raises
                     Scenario.upload_default Scenario.stt_ready)))
  /\ fst (WhisperServer.transcribe Scenario.stt_env_model_raises
            Scenario.upload_default Scenario.stt_ready)
     = Ok (error_response "Transcription failed: Failed to load audio" 500)
  /\ emitted (WhisperServer.transcribe Scenario.stt_env_model_raises
                Scenario.upload_default) Scenario.stt_ready
     = [EvTmpCreate p; EvSave p;
        EvLog INFO "Transcribing audio file: /tmp/tmp7w0c2m_d.wav";
        EvTranscribe p;
        EvLog ERROR "Transcription error: Failed to load audio";
        EvUnlink p].
Proof.
  intros p.
  assert (Hacc : accepted_upload Scenario.upload_default Scenario.stt_ready
                   Scenario.stt_handle Scenario.clip).
  { repeat split; try reflexivity. discriminate. }
  assert (Hsto : stored Scenario.stt_env Scenario.clip Scenario.stt_ready).
  { split; [cbn; set_solver|reflexivity]. }
  assert (Hsto' : stored Scenario.stt_env_model_raises Scenario.clip
                    Scenario.stt_ready).
  { split; [cbn; set_solver|reflexivity]. }
  destruct (transcribe_removes_temp_file Scenario.stt_env
              Scenario.upload_default Scenario.stt_ready Scenario.stt_handle
              Scenario.clip Hacc Hsto) as (Hgone & _).
  destruct (transcribe_removes_temp_file Scenario.stt_env_model_raises
              Scenario.upload_default Scenario.stt_ready Scenario.stt_handle
              Scenario.clip Hacc Hsto') as (Hgone' & _ & _ & Hraise).
  destruct (Hraise _ eq_refl) as (Hresp & Hevs).
  split; [exact Hgone|]. split; [exact Hgone'|].
  split; [exact Hresp|exact Hevs].
Defined.

(** C5.  A transcription that succeeds (the model returns a dictionary
    with a transcript) is answered according to [response_format], which
    is ["json"] when the form has no such field: for ["json"], a JSON
    object with [text], [language] (["en"] when the result has none),
    [duration] (0 when absent) and [segments] (the empty list when absent),
    with status 200; for any other value, the transcript itself as the
    body, with status 200 and content type [text/plain]. *)
Theorem transcribe_result_shape (E : WhisperServer.env)
    (req : WhisperServer.request) (w : world) (mdl : handle)
    (audio_file : WhisperServer.upload)
    (rd : list (string * pyval)) (t : pyval) :
  accepted_upload req w mdl audio_file ->
  stored E audio_file w ->
  WhisperServer.model_transcribe E mdl
    (WhisperServer.tempfile_name E (fs w) +:+ ".wav") = Returns (PDict rd) ->
  dict_lookup "text" rd = Some t ->
  let fmt := WhisperServer.form_get "response_format" "json"
               (WhisperServer.form req) in
  let field k default :=
    match dict_lookup k rd with Some v => v | None => default end in
  (fmt = "json" ->
     exists r, fst (WhisperServer.transcribe E req w) = Ok r
       /\ status r = 200
       /\ payload r =
            JsonBody (PDict [ ("text", t);
                              ("language", field "language" (PStr "en"));
                              ("duration", field "duration" (PInt 0));
                              ("segments", field "segments" (PList [])) ]))
  /\ (fmt <> "json" ->
        exists r, fst (WhisperServer.transcribe E req w) = Ok r
          /\ status r = 200 /\ content_type r = "text/plain"
          /\ payload r = RawBody t)
  /\ ((forall v, ("response_format", v) ∉ WhisperServer.form req) ->
      fmt = "json").
Proof.
  intros Hacc Hsto Hres Ht fmt field.
  rewrite (transcribe_stored E req w mdl audio_file Hacc Hsto). cbv zeta.
  rewrite Hres, (shape_result_of_dict _ rd t w Ht). fold fmt. cbn [fst].
  split; [|split].
  - intros Hj. apply String.eqb_eq in Hj. rewrite Hj.
    eexists. split; [reflexivity|]. split; reflexivity.
  - intros Hj. apply String.eqb_neq in Hj. rewrite Hj.
    eexists. split; [reflexivity|]. repeat split.
  - intros Habs. unfold fmt. clear -Habs.
    induction (WhisperServer.form req) as [|[k v] fm IH]; [reflexivity|].
    cbn [WhisperServer.form_get].
    destruct (String.eqb "response_format" k) eqn:Hk.
    + apply String.eqb_eq in Hk. subst k. exfalso.
      apply (Habs v). apply list_elem_of_here.
    + apply IH. intros v' Hin. apply (Habs v'). now apply list_elem_of_further.
Qed.

Lemma transcribe_result_shape_witness :
  (exists r, fst (WhisperServer.transcribe Scenario.stt_env
                    Scenario.upload_default Scenario.stt_ready) = Ok r
     /\ status r = 200
     /\ payload r =
          JsonBody (PDict [ ("text", PStr " Hello there.");
                            ("language", PStr "de");
                            ("duration", PInt 0);
                            ("segments", PList []) ]))
  /\ (exists r, fst (WhisperServer.transcribe Scenario.stt_env
                       Scenario.upload_as_text Scenario.stt_ready) = Ok r
        /\ status r = 200 /\ content_type r = "text/plain"
        /\ payload r = RawBody (PStr " Hello there.")).
Proof.
  assert (Hsto : stored Scenario.stt_env Scenario.clip Scenario.stt_ready).
  { split; [cbn; set_solver|reflexivity]. }
  split.
  - apply (transcribe_result_shape Scenario.stt_env Scenario.upload_default
             Scenario.stt_ready Scenario.stt_handle Scenario.clip
             Scenario.heard (PStr " Hello there."));
      [repeat split; try reflexivity; discriminate
      | exact Hsto | reflexivity | reflexivity | reflexivity].
  - apply (transcribe_result_shape Scenario.stt_env Scenario.upload_as_text
             Scenario.stt_ready Scenario.stt_handle Scenario.clip
             Scenario.heard (PStr " Hello there."));
      [repeat split; try reflexivity; discriminate
      | exact Hsto | reflexivity | reflexivity | discriminate].
Defined.

(** C6.  POST /transcribe checks, in this order: the model handle (500
    when it is not set), then the ["audio"] part of the upload (400 when
    there is none), then its filename (400 when it is the empty string).
    The temporary file is asked for, and the model called, only for
    requests that pass all three checks, and every such request gets as far
    as asking for the file. *)
Theorem transcribe_validation_order (E : WhisperServer.env)
    (req : WhisperServer.request) (w : world) :
  (model w = None ->
     WhisperServer.transcribe E req w =
       (Ok (error_response "Model not loaded" 500), w))
  /\ (forall mdl, model w = Some mdl ->
        WhisperServer.files_lookup "audio" (WhisperServer.files req) = None ->
        WhisperServer.transcribe E req w =
          (Ok (error_response "No audio file provided" 400), w))
  /\ (forall mdl u, model w = Some mdl ->
        WhisperServer.files_lookup "audio" (WhisperServer.files req) = Some u ->
        WhisperServer.filename u = "" ->
        WhisperServer.transcribe E req w =
          (Ok (error_response "No audio file selected" 400), w))
  /\ ((exists p, EvTmpCreate p ∈ emitted (WhisperServer.transcribe E req) w)
      <-> exists mdl u, accepted_upload req w mdl u)
  /\ ((exists p, EvTranscribe p ∈ emitted (WhisperServer.transcribe E req) w)
      -> exists mdl u, accepted_upload req w mdl u).
Proof.
  split; [|split; [|split; [|split; [split|]]]].
  - intros Hm. unfold WhisperServer.transcribe. py_unfold. now rewrite Hm.
  - intros mdl Hm Hf. unfold WhisperServer.transcribe. py_unfold.
    now rewrite Hm, Hf.
  - intros mdl u Hm Hf Hn. unfold WhisperServer.transcribe. py_unfold.
    now rewrite Hm, Hf, Hn.
  - intros (p & Hp).
    destruct (transcribe_cases E req w) as [Hacc|(r & Hr)]; [exact Hacc|].
    rewrite (emitted_unchanged _ _ _ Hr) in Hp. inversion Hp.
  - intros (mdl & u & Hacc).
    destruct (transcribe_total E req w mdl u Hacc) as (o & evs & F & Hout).
    eexists. erewrite emitted_of_trace; [|rewrite Hout; reflexivity].
    apply list_elem_of_here.
  - intros (p & Hp).
    destruct (transcribe_cases E req w) as [Hacc|(r & Hr)]; [exact Hacc|].
    rewrite (emitted_unchanged _ _ _ Hr) in Hp. inversion Hp.
Qed.

Lemma transcribe_validation_order_witness :
  WhisperServer.transcribe Scenario.stt_env Scenario.upload_default
    Scenario.cold
    = (Ok (error_response "Model not loaded" 500), Scenario.cold)
  /\ WhisperServer.transcribe Scenario.stt_env Scenario.upload_missing
       Scenario.stt_ready
     = (Ok (error_response "No audio file provided" 400), Scenario.stt_ready)
  /\ WhisperServer.transcribe Scenario.stt_env Scenario.upload_unnamed
       Scenario.stt_ready
     = (Ok (error_response "No audio file selected" 400), Scenario.stt_ready)
  /\ exists p, EvTmpCreate p ∈
       emitted (WhisperServer.transcribe Scenario.stt_env
                  Scenario.upload_default) Scenario.stt_ready.
Proof.
  split; [|split; [|split]].
  - apply (transcribe_validation_order Scenario.stt_env
             Scenario.upload_default Scenario.cold). reflexivity.
  - apply (transcribe_validation_order Scenario.stt_env
             Scenario.upload_missing Scenario.stt_ready)
      with (mdl := Scenario.stt_handle); reflexivity.
  - apply (transcribe_validation_order Scenario.stt_env
             Scenario.upload_unnamed Scenario.stt_ready)
      with (mdl := Scenario.stt_handle) (u := Scenario.unnamed_clip);
      reflexivity.
  - apply (transcribe_validation_order Scenario.stt_env
             Scenario.upload_default Scenario.stt_ready).
    exists Scenario.stt_handle, Scenario.clip.
    repeat split; try reflexivity. discriminate.
Defined.

(** C7.  GET /health, on either service, answers with status 200 and a
    [model_loaded] field that is [true] when the model handle is set and
    [false] when it is [None]; the process is left exactly as it was. *)
Theorem health_reports_model_and_changes_nothing (E : TTSServer.env)
    (w : world) :
  (exists d,
      TTSServer.health E w = (Ok (jsonify (PDict d)), w)
      /\ status (jsonify (PDict d)) = 200
      /\ dict_lookup "model_loaded" d
         = Some (PBool (match model w with Some _ => true | None => false end)))
  /\ (exists d,
        WhisperServer.health w = (Ok (jsonify (PDict d)), w)
        /\ status (jsonify (PDict d)) = 200
        /\ dict_lookup "model_loaded" d
           = Some (PBool (match model w with Some _ => true | None => false end))).
Proof.
  split; eexists; (split; [reflexivity|]); split; reflexivity.
Qed.

(** ** Start-up *)

Section Loading.

(** [load_tts_model], outcome by outcome: the primary model, and when the
    constructor or the move to the device raises, the fallback model. *)
Lemma load_tts_model_outcome (E : TTSServer.env) (w : world) :
  TTSServer.load_tts_model E w =
    let dev := if TTSServer.cuda_is_available E then "cuda" else "cpu" in
    let start := [EvLog INFO "Loading TTS model...";
                  EvLog INFO ("Using device: " +:+ dev);
                  EvLoadModel TTSServer.primary_model] in
    let retry e :=
      [EvLog ERROR ("Failed to load TTS model: " +:+ exn_msg e);
       EvLog INFO "Trying fallback model...";
       EvLoadModel TTSServer.fallback_model] in
    let fallback pre e :=
      match TTSServer.TTS E TTSServer.fallback_model with
      | Returns h =>
          (Ok true,
           set_model h
             (extend (pre ++ retry e
                      ++ [EvLog INFO "Fallback TTS model loaded successfully"])
                w))
      | Raises e2 =>
          (Ok false,
           extend (pre ++ retry e
                   ++ [EvLog ERROR ("Fallback model also failed: "
                                    +:+ exn_msg e2)]) w)
      end in
    match TTSServer.TTS E TTSServer.primary_model with
    | Raises e => fallback start e
    | Returns h =>
        match TTSServer.to_device E h dev with
        | Raises e => fallback (start ++ [EvToDevice dev]) e
        | Returns h' =>
            (Ok true,
             set_model h'
               (extend (start ++ [EvToDevice dev;
                                  EvLog INFO "TTS model loaded successfully"])
                  w))
        end
    end.
Proof.
  unfold TTSServer.load_tts_model. py_unfold. cbn.
  destruct (TTSServer.TTS E TTSServer.primary_model) as [h|e]; cbn.
  - destruct (TTSServer.to_device E h _) as [h'|e]; cbn; [world_eq|].
    destruct (TTSServer.TTS E TTSServer.fallback_model); world_eq.
  - destruct (TTSServer.TTS E TTSServer.fallback_model); world_eq.
Qed.

Lemma load_whisper_model_outcome (E : WhisperServer.env) (name : string)
    (w : world) :
  WhisperServer.load_whisper_model E name w =
    let start := [EvLog INFO ("Loading Whisper model: " +:+ name);
                  EvLoadModel name] in
    match WhisperServer.load_model E name with
    | Returns h =>
        (Ok true,
         set_model h
           (extend (start ++ [EvLog INFO "Whisper model loaded successfully"])
              w))
    | Raises e =>
        (Ok false,
         extend (start ++ [EvLog ERROR ("Failed to load Whisper model: "
                                        +:+ exn_msg e)]) w)
    end.
Proof.
  unfold WhisperServer.load_whisper_model. py_unfold. cbn.
  destruct (WhisperServer.load_model E name); world_eq.
Qed.

(** A loader that reports failure has only written to the trace. *)
Lemma load_tts_model_false (E : TTSServer.env) (w w' : world) :
  TTSServer.load_tts_model E w = (Ok false, w') ->
  exists evs, w' = extend evs w
    /\ load_attempts evs = [TTSServer.primary_model; TTSServer.fallback_model]
    /\ existsb is_app_run evs = false.
Proof.
  rewrite load_tts_model_outcome. cbv zeta. intros Hload.
  destruct (TTSServer.TTS E TTSServer.primary_model) as [h|e].
  - destruct (TTSServer.to_device E h _) as [h'|e]; [discriminate|].
    destruct (TTSServer.TTS E TTSServer.fallback_model); [discriminate|].
    injection Hload as <-. eexists. split; [reflexivity|]. split; reflexivity.
  - destruct (TTSServer.TTS E TTSServer.fallback_model); [discriminate|].
    injection Hload as <-. eexists. split; [reflexivity|]. split; reflexivity.
Qed.

Lemma load_whisper_model_false (E : WhisperServer.env) (name : string)
    (w w' : world) :
  WhisperServer.load_whisper_model E name w = (Ok false, w') ->
  exists evs, w' = extend evs w
    /\ load_attempts evs = [name]
    /\ existsb is_app_run evs = false.
Proof.
  rewrite load_whisper_model_outcome. cbv zeta. intros Hload.
  destruct (WhisperServer.load_model E name); [discriminate|].
  injection Hload as <-. eexists. split; [reflexivity|]. split; reflexivity.
Qed.

End Loading.

(** C8.  Neither loader lets an exception out: each ends with a boolean.
    The synthesis loader reports failure only after trying the primary
    model and then one fallback model, the transcription loader after
    trying the one model it was given; an exception from the (last) attempt
    gives [False].  In both services [main] then exits with status 1, and
    [app.run] has not been called. *)
Theorem model_load_failure_stops_the_process (Et : TTSServer.env)
    (Ew : WhisperServer.env) (w : world) :
  (exists b w', TTSServer.load_tts_model Et w = (Ok b, w'))
  /\ (forall name, exists b w',
        WhisperServer.load_whisper_model Ew name w = (Ok b, w'))
  /\ (forall w', TTSServer.load_tts_model Et w = (Ok false, w') ->
        load_attempts (emitted (TTSServer.load_tts_model Et) w)
          = [TTSServer.primary_model; TTSServer.fallback_model]
        /\ model w' = model w)
  /\ (forall e e2,
        (TTSServer.TTS Et TTSServer.primary_model = Raises e
         \/ exists h, TTSServer.TTS Et TTSServer.primary_model = Returns h
              /\ TTSServer.to_device Et h
                   (if TTSServer.cuda_is_available Et then "cuda" else "cpu")
                 = Raises e) ->
        TTSServer.TTS Et TTSServer.fallback_model = Raises e2 ->
        fst (TTSServer.load_tts_model Et w) = Ok false)
  /\ (forall name e, WhisperServer.load_model Ew name = Raises e ->
        fst (WhisperServer.load_whisper_model Ew name w) = Ok false)
  /\ (forall name,
        load_attempts (emitted (WhisperServer.load_whisper_model Ew name) w)
          = [name])
  /\ (forall a w', TTSServer.parse_args Et = Ok a ->
        TTSServer.load_tts_model Et w = (Ok false, w') ->
        fst (TTSServer.main Et w) = Exit 1
        /\ existsb is_app_run (emitted (TTSServer.main Et) w) = false)
  /\ (forall a w', WhisperServer.parse_args Ew = Ok a ->
        WhisperServer.load_whisper_model Ew (arg_model a) w = (Ok false, w') ->
        fst (WhisperServer.main Ew w) = Exit 1
        /\ existsb is_app_run (emitted (WhisperServer.main Ew) w) = false).
Proof.
  split; [|split; [|split; [|split; [|split; [|split; [|split]]]]]].
  - rewrite load_tts_model_outcome. cbv zeta.
    destruct (TTSServer.TTS Et TTSServer.primary_model) as [h|e];
      [destruct (TTSServer.to_device Et h _)|];
      try destruct (TTSServer.TTS Et TTSServer.fallback_model); eauto.
  - intros name. rewrite load_whisper_model_outcome. cbv zeta.
    destruct (WhisperServer.load_model Ew name); eauto.
  - intros w' Hload.
    destruct (load_tts_model_false Et w w' Hload) as (evs & -> & Hatt & _).
    now rewrite (emitted_extend _ _ _ _ Hload).
  - intros e e2 Hprim Hfall. rewrite load_tts_model_outcome. cbv zeta.
    destruct Hprim as [->|(h & -> & ->)]; now rewrite Hfall.
  - intros name e Hl. rewrite load_whisper_model_outcome. cbv zeta.
    now rewrite Hl.
  - intros name.
    pose proof (load_whisper_model_outcome Ew name w) as Hout. cbv zeta in Hout.
    destruct (WhisperServer.load_model Ew name) as [h|e].
    + erewrite emitted_of_trace; [|rewrite Hout; reflexivity]. reflexivity.
    + now rewrite (emitted_extend _ _ _ _ Hout).
  - intros a w' Hparse Hload.
    destruct (load_tts_model_false Et w w' Hload) as (evs & -> & _ & Hrun).
    assert (Hmain : TTSServer.main Et w =
              (Exit 1, extend (evs ++ [EvLog ERROR
                         "Failed to load TTS model. Exiting."]) w)).
    { unfold TTSServer.main. unfold bind at 1. rewrite Hparse.
      unfold bind at 1. rewrite Hload. cbn.
      now rewrite record_is_extend, extend_extend. }
    rewrite Hmain, (emitted_extend _ _ _ _ Hmain). split; [reflexivity|].
    rewrite existsb_app, Hrun. reflexivity.
  - intros a w' Hparse Hload.
    destruct (load_whisper_model_false Ew _ w w' Hload)
      as (evs & -> & _ & Hrun).
    assert (Hmain : WhisperServer.main Ew w =
              (Exit 1, extend (evs ++ [EvLog ERROR
                         "Failed to load Whisper model. Exiting."]) w)).
    { unfold WhisperServer.main. unfold bind at 1. rewrite Hparse.
      unfold bind at 1. rewrite Hload. cbn.
      now rewrite record_is_extend, extend_extend. }
    rewrite Hmain, (emitted_extend _ _ _ _ Hmain). split; [reflexivity|].
    rewrite existsb_app, Hrun. reflexivity.
Qed.

Lemma model_load_failure_stops_the_process_witness :
  fst (TTSServer.load_tts_model Scenario.tts_env_offline Scenario.cold)
    = Ok false
  /\ load_attempts (emitted (TTSServer.load_tts_model Scenario.tts_env_offline)
                      Scenario.cold)
     = [TTSServer.primary_model; TTSServer.fallback_model]
  /\ fst (WhisperServer.load_whisper_model Scenario.stt_env_offline "base"
            Scenario.cold) = Ok false
  /\ fst (TTSServer.main Scenario.tts_env_offline Scenario.cold) = Exit 1
  /\ existsb is_app_run
       (emitted (TTSServer.main Scenario.tts_env_offline) Scenario.cold)
     = false
  /\ fst (WhisperServer.main Scenario.stt_env_offline Scenario.cold) = Exit 1
  /\ existsb is_app_run
       (emitted (WhisperServer.main Scenario.stt_env_offline) Scenario.cold)
     = false.
Proof.
  destruct (model_load_failure_stops_the_process Scenario.tts_env_offline
              Scenario.stt_env_offline Scenario.cold)
    as (_ & _ & Hatt & Hboth & Hone & _ & Htts & Hstt).
  assert (Hload : TTSServer.load_tts_model Scenario.tts_env_offline
                    Scenario.cold
                  = (Ok false,
                     snd (TTSServer.load_tts_model Scenario.tts_env_offline
                            Scenario.cold))) by reflexivity.
  assert (Hload' : WhisperServer.load_whisper_model Scenario.stt_env_offline
                     "base" Scenario.cold
                   = (Ok false,
                      snd (WhisperServer.load_whisper_model
                             Scenario.stt_env_offline "base" Scenario.cold)))
    by reflexivity.
  split; [exact (Hboth _ _ (or_introl eq_refl) eq_refl)|].
  split; [exact (proj1 (Hatt _ Hload))|].
  split; [exact (Hone "base" _ eq_refl)|].
  destruct (Htts _ _ eq_refl Hload) as (Hexit & Hrun).
  destruct (Hstt _ _ eq_refl Hload') as (Hexit' & Hrun').
  split; [exact Hexit|]. split; [exact Hrun|].
  split; [exact Hexit'|exact Hrun'].
Defined.

(* ===================================================================== *)
(** * Further properties of the handlers                                 *)
(* ===================================================================== *)

(** ** Every request is answered *)

Section Answers.
Import TTSServer.
Variable E : env.

(** A request that does not pass the checks is answered 400 or 500. *)
Lemma synthesize_rejected_status (req : request) (w : world) :
  (exists tts d text, accepted req w tts d text)
  \/ (exists r, synthesize E req w = (Ok r, w)
                /\ (status r = 400 \/ status r = 500))
  \/ (exists r msg, synthesize E req w = (Ok r, extend [EvLog ERROR msg] w)
                    /\ status r = 500).
Proof.
  assert (Hleaf : forall (o : outcome response * world),
            (exists r, o = (Ok r, w) /\ (status r = 400 \/ status r = 500))
            \/ (exists r msg, o = (Ok r, extend [EvLog ERROR msg] w)
                              /\ status r = 500) ->
            (exists tts d text, accepted req w tts d text)
            \/ (exists r, o = (Ok r, w)
                          /\ (status r = 400 \/ status r = 500))
            \/ (exists r msg, o = (Ok r, extend [EvLog ERROR msg] w)
                              /\ status r = 500)) by tauto.
  destruct (model w) as [tts|] eqn:Hm.
  2:{ apply Hleaf. left. unfold synthesize. py_unfold. rewrite Hm.
      eexists. split; [reflexivity|]. now right. }
  destruct (get_json req) as [data|e] eqn:Hj.
  2:{ apply Hleaf. right. unfold synthesize. py_unfold. rewrite Hm, Hj. cbn.
      eexists _, _. split; reflexivity. }
  destruct data as [ |b|z|f|s|l|d].
  1-6: apply Hleaf; unfold synthesize; py_unfold; rewrite Hm, Hj; cbn.
  - left. eexists. split; [reflexivity|]. now left.
  - destruct b; cbn; [right; eexists _, _; split; reflexivity|].
    left. eexists. split; [reflexivity|]. now left.
  - destruct (z =? 0)%Z; cbn; [|right; eexists _, _; split; reflexivity].
    left. eexists. split; [reflexivity|]. now left.
  - destruct f; cbn; try (right; eexists _, _; split; reflexivity).
    left. eexists. split; [reflexivity|]. now left.
  - destruct (str_empty s); cbn;
      [left; eexists; split; [reflexivity|]; now left|].
    destruct (str_contains "text" s); cbn;
      [right; eexists _, _; split; reflexivity|].
    left; eexists; split; [reflexivity|]; now left.
  - destruct l as [|x l]; cbn;
      [left; eexists; split; [reflexivity|]; now left|].
    destruct (eq_str "text" x || existsb (eq_str "text") l); cbn;
      [right; eexists _, _; split; reflexivity|].
    left; eexists; split; [reflexivity|]; now left.
  - destruct (dict_lookup "text" d) as [v|] eqn:Ht.
    2:{ apply Hleaf. left. unfold synthesize. py_unfold. rewrite Hm, Hj. cbn.
        rewrite Ht. destruct d; cbn; eexists; (split; [reflexivity|]);
          now left. }
    assert (Hd : match d with [] => false | _ :: _ => true end = true)
      by (destruct d; [discriminate|easy]).
    destruct v as [ |b|z|f|s|l|d'].
    5:{ destruct (strip s) eqn:Hs.
        - apply Hleaf. left. unfold synthesize. py_unfold. rewrite Hm, Hj.
          cbn. rewrite Hd. cbn. rewrite Ht. cbn. rewrite Hs. cbn.
          eexists. split; [reflexivity|]. now left.
        - left. exists tts, d, s. unfold accepted. rewrite Hs. eauto. }
    all: apply Hleaf; right; unfold synthesize; py_unfold; rewrite Hm, Hj; cbn;
      rewrite Hd; cbn; rewrite Ht; cbn; eexists _, _; split; reflexivity.
Qed.

(** What a request comes to, whatever it is and whatever the libraries
    do: a response, some events, and a file set that is the old one or the
    old one with the request's own file. *)
Lemma synthesize_summary (req : request) (w : world) :
  exists r evs F,
    synthesize E req w = (Ok r, set_fs F (extend evs w))
    /\ (status r = 200 \/ status r = 400 \/ status r = 500)
    /\ (F = fs w \/ F = {[ tempfile_name E (fs w) +:+ ".wav" ]} ∪ fs w).
Proof.
  set (p := tempfile_name E (fs w) +:+ ".wav").
  assert (Hnil : w = set_fs (fs w) (extend [] w)).
  { destruct w as [m f t]. unfold set_fs, extend. cbn. now rewrite app_nil_r. }
  destruct (synthesize_rejected_status req w)
    as [(tts & d & text & Hacc)|[(r & Hr & Hs)|(r & msg & Hr & Hs)]].
  2:{ exists r, [], (fs w). rewrite <- Hnil. split; [exact Hr|].
      split; [tauto|now left]. }
  2:{ exists r, [EvLog ERROR msg], (fs w). split; [exact Hr|].
      split; [tauto|now left]. }
  destruct (decide (p ∈ fs w)) as [Htaken|Hfresh].
  { rewrite (synthesize_name_taken E req w tts d text Hacc Htaken).
    eexists _, _, (fs w). split; [reflexivity|]. split; [|now left].
    right; right; reflexivity. }
  destruct (tts_to_file E tts text p) as [[]|e] eqn:Hsynth.
  2:{ rewrite (synthesize_model_raises E req w tts d text Hacc e
                 Hfresh Hsynth).
      eexists _, _, _. split; [reflexivity|]. split; [|now right].
      right; right; reflexivity. }
  destruct (sf_read E p) as [[a0 sr]|e] eqn:Hread.
  2:{ rewrite (synthesize_read_raises E req w tts d text Hacc e
                 Hfresh Hsynth Hread).
      eexists _, _, _. split; [reflexivity|]. split; [|now right].
      right; right; reflexivity. }
  rewrite (synthesize_rendered E req w tts d text Hacc a0 sr
             (conj Hfresh (conj Hsynth Hread))). cbv zeta.
  destruct (stretched E a0 _) as [a|e].
  2:{ eexists _, _, (fs w). split; [reflexivity|]. split; [|now left].
      right; right; reflexivity. }
  destruct (dict_get "response_format" (PStr "wav") d) as [ |b|z|f|fmt|l|d'];
    try (eexists _, _, (fs w); split; [reflexivity|]; split; [|now left];
         right; right; reflexivity).
  destruct (String.eqb (lower fmt) "wav").
  2:{ eexists _, _, (fs w). split; [reflexivity|]. split; [|now left].
      right; left; reflexivity. }
  destruct (sf_write E a sr);
    eexists _, _, (fs w); (split; [reflexivity|]); (split; [|now left]).
  - left; reflexivity.
  - right; right; reflexivity.
Qed.

End Answers.

(** POST /synthesize never lets an exception out and never ends the
    process: whatever the request and whatever the libraries do, the
    handler returns a response whose status is 200, 400 or 500, and the
    model handle is the one it found. *)
Theorem synthesize_always_answers (E : TTSServer.env)
    (req : TTSServer.request) (w : world) :
  exists r w',
    TTSServer.synthesize E req w = (Ok r, w')
    /\ (status r = 200 \/ status r = 400 \/ status r = 500)
    /\ model w' = model w.
Proof.
  destruct (synthesize_summary E req w) as (r & evs & F & Hout & Hs & _).
  rewrite Hout. eexists _, _. split; [reflexivity|]. split; [exact Hs|].
  reflexivity.
Qed.

(** POST /synthesize leaves every file it found in place, adds at most the
    temporary file of this request, and only appends to the trace. *)
Theorem synthesize_touches_only_its_file (E : TTSServer.env)
    (req : TTSServer.request) (w : world) :
  let p := TTSServer.tempfile_name E (fs w) +:+ ".wav" in
  let w' := snd (TTSServer.synthesize E req w) in
  fs w ⊆ fs w'
  /\ fs w' ⊆ {[ p ]} ∪ fs w
  /\ exists evs, trace w' = trace w ++ evs.
Proof.
  intros p w'. unfold w'.
  destruct (synthesize_summary E req w) as (r & evs & F & Hout & _ & HF).
  rewrite Hout. cbn. fold p in HF.
  split; [|split; [|eauto]]; destruct HF as [->| ->]; set_solver.
Qed.

(** A 200 from POST /synthesize is always the encoded waveform: the
    request passed the checks, the file was written, read back and removed,
    the speed adjustment returned, the format spells ["wav"] in some case,
    [sf.write] returned the bytes that are sent as ["speech.wav"], and no
    file is left behind. *)
Theorem synthesize_ok_means_encoded (E : TTSServer.env)
    (req : TTSServer.request) (w : world) (r : response) (w' : world) :
  TTSServer.synthesize E req w = (Ok r, w') ->
  status r = 200 ->
  exists tts d text fmt a0 sr a b,
    accepted req w tts d text
    /\ renders E tts text w a0 sr
    /\ stretched E a0 (dict_get "speed" (PFloat float_one) d) = Returns a
    /\ dict_get "response_format" (PStr "wav") d = PStr fmt
    /\ lower fmt = "wav"
    /\ TTSServer.sf_write E a sr = Returns b
    /\ r = send_file b "audio/wav" "speech.wav"
    /\ fs w' = fs w.
Proof.
  intros Hout Hst.
  destruct (synthesize_rejected_status E req w)
    as [(tts & d & text & Hacc)|[(x & Hr & Hs)|(x & msg & Hr & Hs)]].
  2:{ rewrite Hr in Hout. simplify_eq. destruct Hs; congruence. }
  2:{ rewrite Hr in Hout. simplify_eq. congruence. }
  destruct (synthesize_rendered_or_failed E req w tts d text Hacc)
    as [(a0 & sr & Hren)|(e & w1 & Hfail)].
  2:{ rewrite Hfail in Hout. simplify_eq; try discriminate. }
  rewrite (synthesize_rendered E req w tts d text Hacc a0 sr Hren) in Hout.
  cbv zeta in Hout.
  destruct (stretched E a0 _) as [a|e] eqn:Hstr;
    [|simplify_eq; try discriminate].
  destruct (dict_get "response_format" (PStr "wav") d) as [ |b|z|f|fmt|l|d']
    eqn:Hfmt; try (simplify_eq; try discriminate; fail).
  destruct (String.eqb (lower fmt) "wav") eqn:Hl;
    [|simplify_eq; try discriminate].
  destruct (TTSServer.sf_write E a sr) as [b|e] eqn:Hw;
    [|simplify_eq; try discriminate].
  simplify_eq. apply String.eqb_eq in Hl.
  exists tts, d, text, fmt, a0, sr, a, b.
  split; [exact Hacc|]. split; [exact Hren|]. split; [exact Hstr|].
  split; [exact Hfmt|]. split; [exact Hl|]. split; [exact Hw|].
  split; reflexivity.
Qed.

Lemma synthesize_ok_means_encoded_witness :
  exists w' b,
    TTSServer.synthesize Scenario.tts_env (Scenario.post Scenario.body_hello)
      Scenario.tts_ready = (Ok (send_file b "audio/wav" "speech.wav"), w')
    /\ fs w' = fs Scenario.tts_ready.
Proof.
  assert (Hacc : accepted (Scenario.post Scenario.body_hello)
                   Scenario.tts_ready Scenario.tts_handle
                   Scenario.body_hello "hello").
  { repeat split; try reflexivity. vm_compute. discriminate. }
  assert (Hren : renders Scenario.tts_env Scenario.tts_handle "hello"
                   Scenario.tts_ready [Scenario.half; Scenario.half] 22050).
  { repeat split; try reflexivity. cbn. set_solver. }
  pose proof (synthesize_rendered Scenario.tts_env _ _ _ _ _ Hacc _ _ Hren)
    as Hout.
  destruct (synthesize_ok_means_encoded Scenario.tts_env
              (Scenario.post Scenario.body_hello) Scenario.tts_ready _ _
              Hout eq_refl)
    as (tts & d & text & fmt & a0 & sr & a & b & _ & _ & _ & _ & _ & _
        & Hr & Hfs).
  eexists _, Scenario.riff. split; [exact Hout|exact Hfs].
Defined.

(** A body that cannot be used is a server error, not a client error.
    When [get_json] raises, when the body is a number or [true], or when
    ["text"] holds something that is not a string, the outer [except]
    answers 500 with the text of the exception; one error record is
    logged and nothing else happens. *)
Theorem synthesize_unusable_body_is_500 (E : TTSServer.env)
    (req : TTSServer.request) (w : world) (tts : handle) :
  model w = Some tts ->
  let answer msg :=
    (Ok (error_response ("Request processing failed: " +:+ msg) 500),
     extend [EvLog ERROR ("Request processing error: " +:+ msg)] w) in
  (forall e, TTSServer.get_json req = Raises e ->
     TTSServer.synthesize E req w = answer (exn_msg e))
  /\ (forall v, TTSServer.get_json req = Returns v ->
        truthy v = true ->
        (exists b, v = PBool b) \/ (exists z, v = PInt z)
        \/ (exists f, v = PFloat f) ->
        TTSServer.synthesize E req w =
          answer ("argument of type '" +:+ type_name v +:+ "' is not iterable"))
  /\ (forall d v, TTSServer.get_json req = Returns (PDict d) ->
        dict_lookup "text" d = Some v ->
        (forall s, v <> PStr s) ->
        TTSServer.synthesize E req w =
          answer ("'" +:+ type_name v +:+ "' object has no attribute 'strip'")).
Proof.
  intros Hm answer. split; [|split].
  - intros e Hj. unfold TTSServer.synthesize. py_unfold. now rewrite Hm, Hj.
  - intros v Hj Hv Hkind. unfold TTSServer.synthesize. py_unfold.
    rewrite Hm, Hj. cbn.
    destruct Hkind as [(b & ->)|[(z & ->)|(f & ->)]]; cbn in Hv |- *.
    + now rewrite Hv.
    + now rewrite Hv.
    + destruct f; try discriminate; reflexivity.
  - intros d v Hj Ht Hv. unfold TTSServer.synthesize. py_unfold.
    rewrite Hm, Hj. cbn.
    replace (match d with [] => false | _ :: _ => true end) with true
      by (destruct d; [discriminate|easy]).
    cbn. rewrite Ht. cbn.
    destruct v; try reflexivity. now destruct (Hv s).
Qed.

Lemma synthesize_unusable_body_is_500_witness :
  fst (TTSServer.synthesize Scenario.tts_env Cases.post_malformed
         Scenario.tts_ready)
    = Ok (error_response
            "Request processing failed: 400 Bad Request: Failed to decode JSON object"
            500)
  /\ fst (TTSServer.synthesize Scenario.tts_env Cases.post_scalar
            Scenario.tts_ready)
      = Ok (error_response
              "Request processing failed: argument of type 'int' is not iterable"
              500)
  /\ fst (TTSServer.synthesize Scenario.tts_env
            (Scenario.post Cases.body_numeric_text) Scenario.tts_ready)
      = Ok (error_response
              "Request processing failed: 'int' object has no attribute 'strip'"
              500).
Proof.
  destruct (synthesize_unusable_body_is_500 Scenario.tts_env
              Cases.post_malformed Scenario.tts_ready Scenario.tts_handle
              eq_refl) as (H1 & _ & _).
  destruct (synthesize_unusable_body_is_500 Scenario.tts_env
              Cases.post_scalar Scenario.tts_ready Scenario.tts_handle
              eq_refl) as (_ & H2 & _).
  destruct (synthesize_unusable_body_is_500 Scenario.tts_env
              (Scenario.post Cases.body_numeric_text) Scenario.tts_ready
              Scenario.tts_handle eq_refl) as (_ & _ & H3).
  split; [|split].
  - rewrite (H1 _ eq_refl). reflexivity.
  - rewrite (H2 (PInt 5) eq_refl eq_refl
               (or_intror (or_introl (ex_intro _ 5%Z eq_refl)))).
    reflexivity.
  - rewrite (H3 Cases.body_numeric_text (PInt 5) eq_refl eq_refl).
    + reflexivity.
    + intros s. discriminate.
Defined.

(** ** Which texts and formats are taken *)

Section Strings.

Lemma lstrip_empty_iff (s : string) :
  lstrip s = "" <-> forallb isspace (list_ascii_of_string s) = true.
Proof.
  induction s as [|c s IH]; cbn; [easy|].
  destruct (isspace c); cbn; [exact IH|]. split; discriminate.
Qed.

Lemma lstrip_starts_with_text (s : string) (c : ascii) (t : string) :
  lstrip s = String c t -> isspace c = false.
Proof.
  induction s as [|c' s IH]; cbn; [discriminate|].
  destruct (isspace c') eqn:Hc; [exact IH|]. intros [= <- _]. exact Hc.
Qed.

Lemma forallb_rev {A} (f : A -> bool) (l : list A) :
  forallb f (rev l) = forallb f l.
Proof.
  induction l as [|x l IH]; cbn; [reflexivity|].
  rewrite forallb_app, IH. cbn. rewrite andb_true_r. apply andb_comm.
Qed.

Lemma rstrip_empty_iff (s : string) :
  rstrip s = "" <-> forallb isspace (list_ascii_of_string s) = true.
Proof.
  unfold rstrip.
  rewrite <- (forallb_rev isspace (list_ascii_of_string s)).
  rewrite <- (list_ascii_of_string_of_list_ascii
                (rev (list_ascii_of_string s))) at 2.
  rewrite <- lstrip_empty_iff.
  set (t := lstrip _). split.
  - intros Hnil.
    apply (f_equal list_ascii_of_string) in Hnil.
    rewrite list_ascii_of_string_of_list_ascii in Hnil. cbn in Hnil.
    apply (f_equal (@rev ascii)) in Hnil. rewrite rev_involutive in Hnil.
    cbn in Hnil. apply (f_equal string_of_list_ascii) in Hnil.
    now rewrite string_of_list_ascii_of_string in Hnil.
  - now intros ->.
Qed.

(** [s.strip()] is empty exactly when [s] is made of whitespace only. *)
Lemma strip_empty_iff (s : string) :
  strip s = "" <-> forallb isspace (list_ascii_of_string s) = true.
Proof.
  unfold strip. rewrite rstrip_empty_iff, <- (lstrip_empty_iff s).
  destruct (lstrip s) as [|c t] eqn:Hl; cbn; [easy|].
  rewrite (lstrip_starts_with_text s c t Hl). cbn. split; discriminate.
Qed.

End Strings.

(** The text of a synthesis request is refused as empty exactly when it
    consists of whitespace characters only (the empty string included):
    for a loaded model and a body whose ["text"] is the string [s], the
    answer is the 400 "Empty text provided" if and only if every character
    of [s] is whitespace. *)
Theorem synthesize_refuses_exactly_blank_text (E : TTSServer.env)
    (req : TTSServer.request) (w : world) (tts : handle)
    (d : list (string * pyval)) (s : string) :
  model w = Some tts ->
  TTSServer.get_json req = Returns (PDict d) ->
  dict_lookup "text" d = Some (PStr s) ->
  fst (TTSServer.synthesize E req w)
    = Ok (error_response "Empty text provided" 400)
  <-> forallb isspace (list_ascii_of_string s) = true.
Proof.
  intros Hm Hj Ht. rewrite <- strip_empty_iff. split.
  - intros Hout. destruct (string_dec (strip s) "") as [Hs|Hs]; [exact Hs|].
    exfalso.
    assert (Hacc : accepted req w tts d s).
    { split; [exact Hm|]. split; [exact Hj|]. split; [exact Ht|exact Hs]. }
    destruct (synthesize_rendered_or_failed E req w tts d s Hacc)
      as [(a0 & sr & Hren)|(e & w1 & Hfail)].
    2:{ rewrite Hfail in Hout. discriminate. }
    rewrite (synthesize_rendered E req w tts d s Hacc a0 sr Hren) in Hout.
    cbv zeta in Hout.
    destruct (stretched E a0 _); [|discriminate].
    destruct (dict_get "response_format" (PStr "wav") d); try discriminate.
    destruct (String.eqb (lower s0) "wav"); [|discriminate].
    destruct (TTSServer.sf_write E a sr); discriminate.
  - intros Hs. unfold TTSServer.synthesize. py_unfold. rewrite Hm, Hj. cbn.
    replace (match d with [] => false | _ :: _ => true end) with true
      by (destruct d; [discriminate|easy]).
    cbn. rewrite Ht. cbn. now rewrite Hs.
Qed.

Lemma synthesize_refuses_exactly_blank_text_witness :
  fst (TTSServer.synthesize Scenario.tts_env (Scenario.post Scenario.body_blank)
         Scenario.tts_ready)
    = Ok (error_response "Empty text provided" 400).
Proof.
  apply (synthesize_refuses_exactly_blank_text Scenario.tts_env
           (Scenario.post Scenario.body_blank) Scenario.tts_ready
           Scenario.tts_handle Scenario.body_blank "   ");
    reflexivity.
Defined.

Section Spellings.

Local Open Scope char_scope.

Lemma lower_char_w (c : ascii) : lower_char c = "w" -> c = "w" \/ c = "W".
Proof.
  destruct c as [[] [] [] [] [] [] [] []]; vm_compute; intros H;
    try discriminate H; auto.
Qed.

Lemma lower_char_a (c : ascii) : lower_char c = "a" -> c = "a" \/ c = "A".
Proof.
  destruct c as [[] [] [] [] [] [] [] []]; vm_compute; intros H;
    try discriminate H; auto.
Qed.

Lemma lower_char_v (c : ascii) : lower_char c = "v" -> c = "v" \/ c = "V".
Proof.
  destruct c as [[] [] [] [] [] [] [] []]; vm_compute; intros H;
    try discriminate H; auto.
Qed.

Local Close Scope char_scope.

(** [fmt.lower() == 'wav'] holds for the eight spellings and no other
    string. *)
Lemma lower_is_wav_iff (fmt : string) :
  lower fmt = "wav" <-> In fmt Cases.wav_spellings.
Proof.
  split.
  - destruct fmt as [|c1 [|c2 [|c3 [|c4 rest]]]]; cbn [lower];
      try discriminate.
    intros [= H1 H2 H3].
    apply lower_char_w in H1. apply lower_char_a in H2.
    apply lower_char_v in H3.
    destruct H1 as [-> | ->], H2 as [-> | ->], H3 as [-> | ->];
      cbn; auto 10.
  - cbn. intros H.
    repeat (destruct H as [<- | H]; [reflexivity|]). destruct H.
Qed.

End Spellings.

(** The formats POST /synthesize serves are the eight upper/lower-case
    spellings of ["wav"] and nothing else: for a request whose processing
    and encoding go through, the answer has status 200 if and only if
    [response_format] is one of them. *)
Theorem synthesize_serves_exactly_wav_spellings (E : TTSServer.env)
    (req : TTSServer.request) (w : world) (tts : handle)
    (d : list (string * pyval)) (text fmt : string)
    (a0 a : audio) (sr : Z) (b : bytes) :
  accepted req w tts d text ->
  dict_get "response_format" (PStr "wav") d = PStr fmt ->
  renders E tts text w a0 sr ->
  stretched E a0 (dict_get "speed" (PFloat float_one) d) = Returns a ->
  TTSServer.sf_write E a sr = Returns b ->
  (exists r, fst (TTSServer.synthesize E req w) = Ok r /\ status r = 200)
  <-> In fmt Cases.wav_spellings.
Proof.
  intros Hacc Hfmt Hren Hstr Hw. rewrite <- lower_is_wav_iff.
  rewrite (synthesize_rendered E req w tts d text Hacc a0 sr Hren). cbv zeta.
  rewrite Hstr, Hfmt.
  destruct (String.eqb (lower fmt) "wav") eqn:Hl.
  - apply String.eqb_eq in Hl. rewrite Hw. split; [intros _; exact Hl|].
    intros _. eexists. split; reflexivity.
  - apply String.eqb_neq in Hl. split; [|intros Hl'; now destruct Hl].
    intros (r & Hr & Hs). cbn in Hr. simplify_eq; try discriminate.
Qed.

Lemma synthesize_serves_exactly_wav_spellings_witness :
  exists r, fst (TTSServer.synthesize Scenario.tts_env
                   (Scenario.post Scenario.body_WAV) Scenario.tts_ready) = Ok r
            /\ status r = 200.
Proof.
  apply (synthesize_serves_exactly_wav_spellings Scenario.tts_env
           (Scenario.post Scenario.body_WAV) Scenario.tts_ready
           Scenario.tts_handle Scenario.body_WAV "hello" "WAV"
           [Scenario.half; Scenario.half] [Scenario.half; Scenario.half]
           22050 Scenario.riff).
  - repeat split; try reflexivity. vm_compute. discriminate.
  - reflexivity.
  - repeat split; try reflexivity. cbn. set_solver.
  - reflexivity.
  - reflexivity.
  - cbn. auto 10.
Defined.

(** ** The log line of a synthesis request *)

Section Preview.

Lemma string_length_app (s t : string) :
  String.length (s +:+ t) = (String.length s + String.length t)%nat.
Proof. induction s as [|c s IH]; simpl; [reflexivity|]. now f_equal. Qed.

Lemma slice_to_all (n : nat) (s : string) :
  (String.length s <= n)%nat -> slice_to n s = s.
Proof.
  revert s. induction n as [|n IH]; intros [|c s]; cbn; intros Hle;
    try reflexivity; [lia|].
  rewrite IH; [reflexivity|lia].
Qed.

Lemma slice_to_length (n : nat) (s : string) :
  (n <= String.length s)%nat -> String.length (slice_to n s) = n.
Proof.
  revert s. induction n as [|n IH]; intros [|c s]; cbn; intros Hle;
    try reflexivity; [lia|].
  rewrite IH; [reflexivity|lia].
Qed.

Lemma slice_to_is_prefix (n : nat) (s : string) :
  exists rest, s = slice_to n s +:+ rest.
Proof.
  revert s. induction n as [|n IH]; intros [|c s]; simpl;
    try (eexists; reflexivity).
  destruct (IH s) as (rest & Hrest). exists rest.
  change (String c s = String c (slice_to n s +:+ rest)). now f_equal.
Qed.

End Preview.

(** The log line of a synthesis request shows the text in full when it
    has at most 50 characters, and otherwise its first 50 characters
    followed by three dots; the line is never longer than 74 characters. *)
Theorem synthesizing_message_shows_at_most_50 (text : string) :
  ((String.length text <= 50)%nat ->
     TTSServer.synthesizing_message text
       = "Synthesizing text: '" +:+ text +:+ "'")
  /\ ((50 < String.length text)%nat ->
        exists head rest,
          text = head +:+ rest /\ String.length head = 50%nat
          /\ TTSServer.synthesizing_message text
             = "Synthesizing text: '" +:+ head +:+ "...'")
  /\ (String.length (TTSServer.synthesizing_message text) <= 74)%nat.
Proof.
  unfold TTSServer.synthesizing_message. split; [|split].
  - intros Hle. rewrite slice_to_all by exact Hle.
    destruct (Nat.ltb_spec 50 (String.length text)); [lia|reflexivity].
  - intros Hlt. destruct (slice_to_is_prefix 50 text) as (rest & Hrest).
    exists (slice_to 50 text), rest. split; [exact Hrest|].
    split; [apply slice_to_length; lia|].
    destruct (Nat.ltb_spec 50 (String.length text)); [reflexivity|lia].
  - change (String.length ("Synthesizing text: '" +:+
              (slice_to 50 text +:+
               ((if (50 <? String.length text)%nat then "..." else "")
                +:+ "'"))) <= 74)%nat.
    rewrite !string_length_app.
    destruct (Nat.le_gt_cases (String.length text) 50) as [Hle|Hlt].
    + rewrite slice_to_all by exact Hle.
      destruct (50 <? String.length text)%nat; cbn; lia.
    + rewrite slice_to_length by lia.
      destruct (50 <? String.length text)%nat; cbn; lia.
Qed.

Lemma synthesizing_message_shows_at_most_50_witness :
  TTSServer.synthesizing_message "hello" = "Synthesizing text: 'hello'"
  /\ exists head rest,
       Cases.long_text = head +:+ rest /\ String.length head = 50%nat
       /\ TTSServer.synthesizing_message Cases.long_text
          = "Synthesizing text: '" +:+ head +:+ "...'".
Proof.
  split.
  - apply (synthesizing_message_shows_at_most_50 "hello"). cbn. lia.
  - apply (synthesizing_message_shows_at_most_50 Cases.long_text). cbn. lia.
Defined.

(** ** Loading, and what depends on it *)

Section AfterLoading.

(** What a loader leaves behind besides its verdict: only trace entries,
    none of them a call of [app.run], and the files as they were. *)
Lemma load_tts_model_effect (E : TTSServer.env) (w : world) :
  exists b evs,
    trace (snd (TTSServer.load_tts_model E w)) = trace w ++ evs
    /\ fst (TTSServer.load_tts_model E w) = Ok b
    /\ existsb is_app_run evs = false
    /\ fs (snd (TTSServer.load_tts_model E w)) = fs w
    /\ (load_attempts evs = [TTSServer.primary_model]
        \/ load_attempts evs
           = [TTSServer.primary_model; TTSServer.fallback_model]).
Proof.
  rewrite load_tts_model_outcome. cbv zeta.
  destruct (TTSServer.TTS E TTSServer.primary_model) as [h|e].
  - destruct (TTSServer.to_device E h _) as [h'|e].
    + eexists _, _. split; [reflexivity|]. repeat split. now left.
    + destruct (TTSServer.TTS E TTSServer.fallback_model);
        eexists _, _; (split; [reflexivity|]); repeat split; now right.
  - destruct (TTSServer.TTS E TTSServer.fallback_model);
      eexists _, _; (split; [reflexivity|]); repeat split; now right.
Qed.

Lemma load_whisper_model_effect (E : WhisperServer.env) (name : string)
    (w : world) :
  exists b evs,
    trace (snd (WhisperServer.load_whisper_model E name w)) = trace w ++ evs
    /\ fst (WhisperServer.load_whisper_model E name w) = Ok b
    /\ existsb is_app_run evs = false
    /\ fs (snd (WhisperServer.load_whisper_model E name w)) = fs w.
Proof.
  rewrite load_whisper_model_outcome. cbv zeta.
  destruct (WhisperServer.load_model E name);
    eexists _, _; (split; [reflexivity|]); repeat split.
Qed.

End AfterLoading.

(** [load_tts_model] sets the global handle exactly when it returns
    [True].  On the primary path the handle is the model after it was moved
    to the device ("cuda" when available, else "cpu"); on the fallback path
    it is the fallback model as constructed, which is not moved to any
    device.  When the loader returns [False] the handle is left as it was.
    No file is touched either way. *)
Theorem load_tts_model_installs_on_success (E : TTSServer.env) (w : world)
    (b : bool) (w' : world) :
  TTSServer.load_tts_model E w = (Ok b, w') ->
  let dev := if TTSServer.cuda_is_available E then "cuda" else "cpu" in
  fs w' = fs w
  /\ (b = false -> model w' = model w)
  /\ (b = true ->
        (exists h0 h,
            TTSServer.TTS E TTSServer.primary_model = Returns h0
            /\ TTSServer.to_device E h0 dev = Returns h
            /\ model w' = Some h
            /\ load_attempts (emitted (TTSServer.load_tts_model E) w)
               = [TTSServer.primary_model])
        \/ (exists h,
              TTSServer.TTS E TTSServer.fallback_model = Returns h
              /\ model w' = Some h
              /\ load_attempts (emitted (TTSServer.load_tts_model E) w)
                 = [TTSServer.primary_model; TTSServer.fallback_model])).
Proof.
  intros Hload dev.
  pose proof (load_tts_model_outcome E w) as Hout. cbv zeta in Hout.
  fold dev in Hout. rewrite Hload in Hout.
  destruct (TTSServer.TTS E TTSServer.primary_model) as [h0|e] eqn:Hp.
  - destruct (TTSServer.to_device E h0 dev) as [h|e] eqn:Hd.
    + injection Hout as -> ->. split; [reflexivity|].
      split; [discriminate|]. intros _. left. exists h0, h.
      split; [reflexivity|]. split; [exact Hd|]. split; [reflexivity|].
      erewrite emitted_of_trace; [|rewrite Hload; reflexivity].
      reflexivity.
    + destruct (TTSServer.TTS E TTSServer.fallback_model) as [h|e2] eqn:Hf;
        injection Hout as -> ->; (split; [reflexivity|]).
      * split; [discriminate|]. intros _. right. exists h.
        split; [reflexivity|]. split; [reflexivity|].
        erewrite emitted_of_trace; [|rewrite Hload; reflexivity].
        reflexivity.
      * split; [reflexivity|discriminate].
  - destruct (TTSServer.TTS E TTSServer.fallback_model) as [h|e2] eqn:Hf;
      injection Hout as -> ->; (split; [reflexivity|]).
    + split; [discriminate|]. intros _. right. exists h.
      split; [reflexivity|]. split; [reflexivity|].
      erewrite emitted_of_trace; [|rewrite Hload; reflexivity].
      reflexivity.
    + split; [reflexivity|discriminate].
Qed.

Lemma load_tts_model_installs_on_success_witness :
  model (snd (TTSServer.load_tts_model Scenario.tts_env Scenario.cold))
    = Some (Handle TTSServer.primary_model "cpu")
  /\ model (snd (TTSServer.load_tts_model Cases.tts_env_primary_missing
                   Scenario.cold))
      = Some (Handle TTSServer.fallback_model "")
  /\ model (snd (TTSServer.load_tts_model Scenario.tts_env_offline
                   Scenario.cold))
      = None.
Proof.
  split; [|split].
  - destruct (load_tts_model_installs_on_success Scenario.tts_env
                Scenario.cold true _ eq_refl) as (_ & _ & Hset).
    destruct (Hset eq_refl)
      as [(h0 & h & Hp & Hd & Hm & _)|(h & Hf & Hm & Hatt)].
    + injection Hp as <-. injection Hd as <-. exact Hm.
    + discriminate Hatt.
  - destruct (load_tts_model_installs_on_success
                Cases.tts_env_primary_missing Scenario.cold true _ eq_refl)
      as (_ & _ & Hset).
    destruct (Hset eq_refl)
      as [(h0 & h & Hp & _)|(h & Hf & Hm & _)].
    + discriminate Hp.
    + injection Hf as <-. exact Hm.
  - destruct (load_tts_model_installs_on_success Scenario.tts_env_offline
                Scenario.cold false _ eq_refl) as (_ & Hkeep & _).
    exact (Hkeep eq_refl).
Defined.

(** In a process that starts without a model, GET /health after the
    loader has run reports as [model_loaded] exactly what the loader
    returned, in both services. *)
Theorem health_after_load_reports_the_verdict (Et : TTSServer.env)
    (Ew : WhisperServer.env) (name : string) (w : world) :
  model w = None ->
  (forall b w', TTSServer.load_tts_model Et w = (Ok b, w') ->
     exists d, TTSServer.health Et w' = (Ok (jsonify (PDict d)), w')
               /\ dict_lookup "model_loaded" d = Some (PBool b))
  /\ (forall b w', WhisperServer.load_whisper_model Ew name w = (Ok b, w') ->
        exists d, WhisperServer.health w' = (Ok (jsonify (PDict d)), w')
                  /\ dict_lookup "model_loaded" d = Some (PBool b)).
Proof.
  intros Hcold. split.
  - intros b w' Hload.
    rewrite load_tts_model_outcome in Hload. cbv zeta in Hload.
    eexists. split; [reflexivity|]. cbn. do 2 f_equal.
    destruct (TTSServer.TTS Et TTSServer.primary_model) as [h0|e];
      [destruct (TTSServer.to_device Et h0 _) as [h|e]|];
      try destruct (TTSServer.TTS Et TTSServer.fallback_model) as [h'|e2];
      injection Hload as <- <-; cbn; try reflexivity; now rewrite Hcold.
  - intros b w' Hload.
    rewrite load_whisper_model_outcome in Hload. cbv zeta in Hload.
    eexists. split; [reflexivity|]. cbn. do 2 f_equal.
    destruct (WhisperServer.load_model Ew name);
      injection Hload as <- <-; cbn; [reflexivity|now rewrite Hcold].
Qed.

Lemma health_after_load_reports_the_verdict_witness :
  (exists d w',
      TTSServer.health Scenario.tts_env
        (snd (TTSServer.load_tts_model Scenario.tts_env Scenario.cold))
        = (Ok (jsonify (PDict d)), w')
      /\ dict_lookup "model_loaded" d = Some (PBool true))
  /\ (exists d w',
        WhisperServer.health
          (snd (WhisperServer.load_whisper_model Scenario.stt_env_offline
                  "base" Scenario.cold))
          = (Ok (jsonify (PDict d)), w')
        /\ dict_lookup "model_loaded" d = Some (PBool false)).
Proof.
  destruct (health_after_load_reports_the_verdict Scenario.tts_env
              Scenario.stt_env_offline "base" Scenario.cold eq_refl)
    as (Htts & Hstt).
  split.
  - destruct (Htts true _ eq_refl) as (d & Hh & Hd). eauto.
  - destruct (Hstt false _ eq_refl) as (d & Hh & Hd). eauto.
Defined.

(** ** Serving *)

Section Serving.

Lemma filter_none {A} (f : A -> bool) (l : list A) :
  existsb f l = false -> List.filter f l = [].
Proof.
  induction l as [|x l IH]; cbn; [reflexivity|].
  destruct (f x); cbn; [discriminate|exact IH].
Qed.

Lemma last_of_app {A} (l k : list A) (x : A) :
  last k = Some x -> last (l ++ k) = Some x.
Proof.
  intros Hk. induction l as [|y l IH]; cbn; [exact Hk|].
  destruct (l ++ k); [discriminate IH|exact IH].
Qed.

(** [main] of the synthesis service once the loader has returned [True]
    in [w1]. *)
Lemma tts_main_after_load (E : TTSServer.env) (w w1 : world) (a : args) :
  TTSServer.parse_args E = Ok a ->
  TTSServer.load_tts_model E w = (Ok true, w1) ->
  let starting := EvLog INFO ("Starting TTS server on " +:+ arg_host a +:+ ":"
                              +:+ pretty (arg_port a)) in
  let serve := EvAppRun (arg_host a) (arg_port a) (arg_debug a) true in
  TTSServer.main E w =
    match TTSServer.app_run E a with
    | Returns u => (Ok u, extend [starting; serve] w1)
    | Raises e =>
        (Exit 1,
         extend [starting; serve; EvLog ERROR ("Server error: " +:+ exn_msg e)]
           w1)
    end.
Proof.
  intros Hparse Hload starting serve.
  unfold TTSServer.main. unfold bind at 1. rewrite Hparse.
  unfold bind at 1. rewrite Hload. py_unfold. cbn.
  destruct (TTSServer.app_run E a); world_eq.
Qed.

Lemma stt_main_after_load (E : WhisperServer.env) (w w1 : world) (a : args) :
  WhisperServer.parse_args E = Ok a ->
  WhisperServer.load_whisper_model E (arg_model a) w = (Ok true, w1) ->
  let starting := [EvLog INFO ("Starting Whisper server on " +:+ arg_host a
                               +:+ ":" +:+ pretty (arg_port a));
                   EvLog INFO ("Using model: " +:+ arg_model a)] in
  let serve := EvAppRun (arg_host a) (arg_port a) (arg_debug a) true in
  WhisperServer.main E w =
    match WhisperServer.app_run E a with
    | Returns u => (Ok u, extend (starting ++ [serve]) w1)
    | Raises e =>
        (Exit 1,
         extend (starting ++ [serve; EvLog ERROR ("Server error: "
                                                +:+ exn_msg e)]) w1)
    end.
Proof.
  intros Hparse Hload starting serve.
  unfold WhisperServer.main. unfold bind at 1. rewrite Hparse.
  unfold bind at 1. rewrite Hload. py_unfold. cbn.
  destruct (WhisperServer.app_run E a); world_eq.
Qed.

End Serving.

(** [main] of the synthesis service.  Unusable command-line arguments end
    the process with argparse's exit code before any model is loaded.
    Once the loader has returned [True], [app.run] is called exactly once,
    with the host, port and debug flag of the command line and
    [threaded=True]; if it returns, [main] returns, and if it raises, the
    error is logged and the process exits with status 1.  The handle is
    the one the loader installed. *)
Theorem tts_main_serves_after_load (E : TTSServer.env) (w : world) :
  (forall c, TTSServer.parse_args E = Exit c ->
     TTSServer.main E w = (Exit c, w))
  /\ (forall a w1,
        TTSServer.parse_args E = Ok a ->
        TTSServer.load_tts_model E w = (Ok true, w1) ->
        (forall u, TTSServer.app_run E a = Returns u ->
           fst (TTSServer.main E w) = Ok tt)
        /\ (forall e, TTSServer.app_run E a = Raises e ->
              fst (TTSServer.main E w) = Exit 1
              /\ last (trace (snd (TTSServer.main E w)))
                 = Some (EvLog ERROR ("Server error: " +:+ exn_msg e)))
        /\ List.filter is_app_run (emitted (TTSServer.main E) w)
           = [EvAppRun (arg_host a) (arg_port a) (arg_debug a) true]
        /\ model (snd (TTSServer.main E w)) = model w1
        /\ fs (snd (TTSServer.main E w)) = fs w).
Proof.
  split.
  - intros c Hparse. unfold TTSServer.main. unfold bind at 1.
    now rewrite Hparse.
  - intros a w1 Hparse Hload.
    pose proof (tts_main_after_load E w w1 a Hparse Hload) as Hmain.
    cbv zeta in Hmain.
    destruct (load_tts_model_effect E w) as (b & evs & Htr & _ & Hrun & Hfs & _).
    rewrite Hload in Htr, Hfs. cbn in Htr, Hfs.
    split; [|split; [|split; [|split]]].
    + intros [] Hr. rewrite Hmain, Hr. reflexivity.
    + intros e Hr. rewrite Hmain, Hr. split; [reflexivity|]. cbn.
      now apply last_of_app.
    + destruct (TTSServer.app_run E a);
        (erewrite emitted_of_trace;
         [|rewrite Hmain; cbn; rewrite Htr, <- app_assoc; reflexivity]);
        rewrite List.filter_app, (filter_none _ _ Hrun); reflexivity.
    + rewrite Hmain. destruct (TTSServer.app_run E a); reflexivity.
    + rewrite Hmain. destruct (TTSServer.app_run E a); exact Hfs.
Qed.

Lemma tts_main_serves_after_load_witness :
  fst (TTSServer.main Scenario.tts_env Scenario.cold) = Ok tt
  /\ fst (TTSServer.main Cases.tts_env_port_busy Scenario.cold) = Exit 1
  /\ List.filter is_app_run
       (emitted (TTSServer.main Cases.tts_env_port_busy) Scenario.cold)
     = [EvAppRun "127.0.0.1" 8002 false true].
Proof.
  destruct (tts_main_serves_after_load Scenario.tts_env Scenario.cold)
    as (_ & Hok).
  destruct (tts_main_serves_after_load Cases.tts_env_port_busy Scenario.cold)
    as (_ & Hbusy).
  destruct (Hok _ _ eq_refl eq_refl) as (Hret & _).
  destruct (Hbusy _ _ eq_refl eq_refl) as (_ & Hexit & Hrun & _).
  split; [exact (Hret tt eq_refl)|].
  split; [exact (proj1 (Hexit _ eq_refl))|exact Hrun].
Defined.

(** [main] of the transcription service: the same course, with the model
    named on the command line. *)
Theorem stt_main_serves_after_load (E : WhisperServer.env) (w : world) :
  (forall c, WhisperServer.parse_args E = Exit c ->
     WhisperServer.main E w = (Exit c, w))
  /\ (forall a w1,
        WhisperServer.parse_args E = Ok a ->
        WhisperServer.load_whisper_model E (arg_model a) w = (Ok true, w1) ->
        (forall u, WhisperServer.app_run E a = Returns u ->
           fst (WhisperServer.main E w) = Ok tt)
        /\ (forall e, WhisperServer.app_run E a = Raises e ->
              fst (WhisperServer.main E w) = Exit 1
              /\ last (trace (snd (WhisperServer.main E w)))
                 = Some (EvLog ERROR ("Server error: " +:+ exn_msg e)))
        /\ List.filter is_app_run (emitted (WhisperServer.main E) w)
           = [EvAppRun (arg_host a) (arg_port a) (arg_debug a) true]
        /\ load_attempts (emitted (WhisperServer.main E) w) = [arg_model a]
        /\ model (snd (WhisperServer.main E w)) = model w1
        /\ fs (snd (WhisperServer.main E w)) = fs w).
Proof.
  split.
  - intros c Hparse. unfold WhisperServer.main. unfold bind at 1.
    now rewrite Hparse.
  - intros a w1 Hparse Hload.
    pose proof (stt_main_after_load E w w1 a Hparse Hload) as Hmain.
    cbv zeta in Hmain.
    pose proof (load_whisper_model_outcome E (arg_model a) w) as Hout.
    cbv zeta in Hout. rewrite Hload in Hout.
    destruct (WhisperServer.load_model E (arg_model a)) as [h|e0];
      [|discriminate].
    injection Hout as ->.
    split; [|split; [|split; [|split; [|split]]]].
    + intros [] Hr. rewrite Hmain, Hr. reflexivity.
    + intros e Hr. rewrite Hmain, Hr. split; [reflexivity|]. cbn.
      now apply last_of_app.
    + destruct (WhisperServer.app_run E a);
        (erewrite emitted_of_trace;
         [|rewrite Hmain; cbn; rewrite <- app_assoc; reflexivity]);
        reflexivity.
    + destruct (WhisperServer.app_run E a);
        (erewrite emitted_of_trace;
         [|rewrite Hmain; cbn; rewrite <- app_assoc; reflexivity]);
        reflexivity.
    + rewrite Hmain. destruct (WhisperServer.app_run E a); reflexivity.
    + rewrite Hmain. destruct (WhisperServer.app_run E a); reflexivity.
Qed.

Lemma stt_main_serves_after_load_witness :
  fst (WhisperServer.main Scenario.stt_env Scenario.cold) = Ok tt
  /\ load_attempts (emitted (WhisperServer.main Scenario.stt_env) Scenario.cold)
     = ["base"].
Proof.
  destruct (stt_main_serves_after_load Scenario.stt_env Scenario.cold)
    as (_ & Hok).
  destruct (Hok _ _ eq_refl eq_refl) as (Hret & _ & _ & Hatt & _).
  split; [exact (Hret tt eq_refl)|exact Hatt].
Defined.

(** ** The model catalogue *)

(** Every model name the synthesis loader tries to load is one GET /models
    lists, and GET /models leaves the process as it is. *)
Theorem tts_loader_tries_only_listed_models (E : TTSServer.env) (w : world)
    (attribute : handle -> string -> option pyval) (name : string) :
  In name (load_attempts (emitted (TTSServer.load_tts_model E) w)) ->
  let w' := snd (TTSServer.load_tts_model E w) in
  exists d listed,
    TTSServer.get_models attribute w' = (Ok (jsonify (PDict d)), w')
    /\ dict_lookup "models" d = Some (PList listed)
    /\ In (PStr name) listed.
Proof.
  intros Hin w'.
  destruct (load_tts_model_effect E w) as (b & evs & Htr & _ & _ & _ & Hatt).
  rewrite (emitted_of_trace _ _ _ Htr) in Hin.
  eexists _, _. split; [reflexivity|]. split; [reflexivity|].
  destruct Hatt as [Hatt|Hatt]; rewrite Hatt in Hin; cbn in Hin |- *.
  - destruct Hin as [<-|[]]. now left.
  - destruct Hin as [<-|[<-|[]]]; [now left|right; now left].
Qed.

Lemma tts_loader_tries_only_listed_models_witness :
  exists d listed,
    TTSServer.get_models Cases.named_attribute
      (snd (TTSServer.load_tts_model Cases.tts_env_primary_missing
              Scenario.cold))
      = (Ok (jsonify (PDict d)),
         snd (TTSServer.load_tts_model Cases.tts_env_primary_missing
                Scenario.cold))
    /\ dict_lookup "models" d = Some (PList listed)
    /\ In (PStr TTSServer.fallback_model) listed.
Proof.
  apply (tts_loader_tries_only_listed_models Cases.tts_env_primary_missing
           Scenario.cold Cases.named_attribute TTSServer.fallback_model).
  right. now left.
Defined.

(** GET /models and the loaded model.  In the synthesis service
    [current_model] is null exactly when no model is loaded, as long as the
    model object does not carry [None] as its [model_name] (a model without
    that attribute shows as "unknown").  In the transcription service a
    [current_model] that is not null is the [name] attribute of the loaded
    model, but a loaded model without that attribute shows as null too.
    Neither handler changes the process. *)
Theorem models_endpoints_show_the_loaded_model
    (attribute : handle -> string -> option pyval) (w : world) :
  (exists d cur,
      TTSServer.get_models attribute w = (Ok (jsonify (PDict d)), w)
      /\ dict_lookup "current_model" d = Some cur
      /\ (model w = None -> cur = PNone)
      /\ ((forall h, attribute h "model_name" <> Some PNone) ->
          cur = PNone -> model w = None))
  /\ (exists d cur,
        WhisperServer.get_models attribute w = (Ok (jsonify (PDict d)), w)
        /\ dict_lookup "current_model" d = Some cur
        /\ (model w = None -> cur = PNone)
        /\ (cur <> PNone ->
            exists h, model w = Some h /\ attribute h "name" = Some cur)
        /\ (forall h, model w = Some h -> attribute h "name" = None ->
            cur = PNone)).
Proof.
  split.
  - eexists _, _. split; [reflexivity|]. split; [reflexivity|]. cbn. split.
    + now intros ->.
    + intros Hattr. destruct (model w) as [h|]; [|reflexivity].
      destruct (attribute h "model_name") as [v|] eqn:Hv; [|discriminate].
      intros ->. now destruct (Hattr h).
  - eexists _, _. split; [reflexivity|]. split; [reflexivity|]. cbn.
    split; [now intros ->|]. split.
    + destruct (model w) as [h|]; [|now intros []].
      destruct (attribute h "name") as [v|] eqn:Hv; [|now intros []].
      intros _. eauto.
    + intros h -> Hv. now rewrite Hv.
Qed.

Lemma models_endpoints_show_the_loaded_model_witness :
  (exists d,
      TTSServer.get_models Cases.named_attribute Scenario.cold
        = (Ok (jsonify (PDict d)), Scenario.cold)
      /\ dict_lookup "current_model" d = Some PNone)
  /\ (exists d,
        WhisperServer.get_models (fun _ _ => None) Scenario.stt_ready
          = (Ok (jsonify (PDict d)), Scenario.stt_ready)
        /\ dict_lookup "current_model" d = Some PNone).
Proof.
  destruct (models_endpoints_show_the_loaded_model Cases.named_attribute
              Scenario.cold) as ((d & cur & Hg & Hd & Hnone & _) & _).
  destruct (models_endpoints_show_the_loaded_model (fun _ _ => None)
              Scenario.stt_ready)
    as (_ & (d' & cur' & Hg' & Hd' & _ & _ & Hmissing)).
  split.
  - exists d. split; [exact Hg|]. rewrite Hd. f_equal. now apply Hnone.
  - exists d'. split; [exact Hg'|]. rewrite Hd'. f_equal.
    now apply (Hmissing Scenario.stt_handle).
Defined.

(** ** Every upload is answered *)

Section UploadAnswers.
Import WhisperServer.
Variable E : env.

(** A shaped result is a 200, and comes from a dictionary with a
    transcript. *)
Lemma shape_result_ok (fmt : string) (result : pyval) (w : world)
    (r : response) :
  fst (shape_result fmt result w) = Ok r ->
  status r = 200
  /\ exists rd t, result = PDict rd /\ dict_lookup "text" rd = Some t.
Proof.
  unfold shape_result. py_unfold.
  destruct (String.eqb fmt "json"); destruct result; cbn; try discriminate;
    destruct (dict_lookup "text" d) eqn:Ht; cbn; try discriminate;
    intros [= <-]; (split; [reflexivity|]); eauto.
Qed.

(** Without a transcript the shaping raises [KeyError('text')]. *)
Lemma shape_result_without_text (fmt : string) (rd : list (string * pyval))
    (w : world) :
  dict_lookup "text" rd = None ->
  fst (shape_result fmt (PDict rd) w) = Raise (KeyError "text").
Proof.
  intros Ht. unfold shape_result. py_unfold.
  destruct (String.eqb fmt "json"); cbn; now rewrite Ht.
Qed.

Lemma transcribe_rejected_status (req : request) (w : world) :
  (exists mdl audio_file, accepted_upload req w mdl audio_file)
  \/ (exists r, transcribe E req w = (Ok r, w)
                /\ (status r = 400 \/ status r = 500)).
Proof.
  destruct (model w) as [mdl|] eqn:Hm.
  2:{ right. unfold transcribe. py_unfold. rewrite Hm.
      eexists. split; [reflexivity|]. now right. }
  destruct (files_lookup "audio" (files req)) as [u|] eqn:Hf.
  2:{ right. unfold transcribe. py_unfold. rewrite Hm, Hf.
      eexists. split; [reflexivity|]. now left. }
  destruct (String.eqb (filename u) "") eqn:Hn.
  { right. unfold transcribe. py_unfold. rewrite Hm, Hf, Hn.
    eexists. split; [reflexivity|]. now left. }
  left. exists mdl, u. apply String.eqb_neq in Hn. now repeat split.
Qed.

Lemma transcribe_summary (req : request) (w : world) :
  exists r evs F,
    transcribe E req w = (Ok r, set_fs F (extend evs w))
    /\ (status r = 200 \/ status r = 400 \/ status r = 500)
    /\ (F = fs w \/ F = {[ tempfile_name E (fs w) +:+ ".wav" ]} ∪ fs w).
Proof.
  set (p := tempfile_name E (fs w) +:+ ".wav").
  assert (Hnil : w = set_fs (fs w) (extend [] w)).
  { destruct w as [m f t]. unfold set_fs, extend. cbn. now rewrite app_nil_r. }
  destruct (transcribe_rejected_status req w)
    as [(mdl & u & Hacc)|(r & Hr & Hs)].
  2:{ exists r, [], (fs w). rewrite <- Hnil. split; [exact Hr|].
      split; [tauto|now left]. }
  destruct (decide (p ∈ fs w)) as [Htaken|Hfresh].
  { rewrite (transcribe_name_taken E req w mdl u Hacc Htaken).
    eexists _, _, (fs w). split; [reflexivity|]. split; [|now left].
    right; right; reflexivity. }
  destruct (save E u p) as [[]|e] eqn:Hsave.
  2:{ rewrite (transcribe_save_raises E req w mdl u Hacc e Hfresh Hsave).
      eexists _, _, _. split; [reflexivity|]. split; [|now right].
      right; right; reflexivity. }
  rewrite (transcribe_stored E req w mdl u Hacc (conj Hfresh Hsave)).
  cbv zeta. fold p.
  destruct (model_transcribe E mdl p) as [result|e].
  2:{ eexists _, _, (fs w). split; [reflexivity|]. split; [|now left].
      right; right; reflexivity. }
  destruct (fst (shape_result _ result w)) as [r|e|c] eqn:Hshape.
  - destruct (shape_result_ok _ _ _ _ Hshape) as (Hs & _).
    eexists _, _, (fs w). split; [reflexivity|]. split; [|now left].
    now left.
  - eexists _, _, (fs w). split; [reflexivity|]. split; [|now left].
    right; right; reflexivity.
  - now destruct (shape_result_never_exits _ result w c Hshape).
Qed.

End UploadAnswers.

(** POST /transcribe never lets an exception out and never ends the
    process: whatever the upload and whatever the libraries do, the
    handler returns a response whose status is 200, 400 or 500, and the
    model handle is the one it found. *)
Theorem transcribe_always_answers (E : WhisperServer.env)
    (req : WhisperServer.request) (w : world) :
  exists r w',
    WhisperServer.transcribe E req w = (Ok r, w')
    /\ (status r = 200 \/ status r = 400 \/ status r = 500)
    /\ model w' = model w.
Proof.
  destruct (transcribe_summary E req w) as (r & evs & F & Hout & Hs & _).
  rewrite Hout. eexists _, _. split; [reflexivity|]. split; [exact Hs|].
  reflexivity.
Qed.

(** POST /transcribe leaves every file it found in place, adds at most
    the temporary file of this request, and only appends to the trace. *)
Theorem transcribe_touches_only_its_file (E : WhisperServer.env)
    (req : WhisperServer.request) (w : world) :
  let p := WhisperServer.tempfile_name E (fs w) +:+ ".wav" in
  let w' := snd (WhisperServer.transcribe E req w) in
  fs w ⊆ fs w'
  /\ fs w' ⊆ {[ p ]} ∪ fs w
  /\ exists evs, trace w' = trace w ++ evs.
Proof.
  intros p w'. unfold w'.
  destruct (transcribe_summary E req w) as (r & evs & F & Hout & _ & HF).
  rewrite Hout. cbn. fold p in HF.
  split; [|split; [|eauto]]; destruct HF as [->| ->]; set_solver.
Qed.

(** A 200 from POST /transcribe always carries a transcript: the request
    passed the checks, the upload was saved, the model returned a
    dictionary with a ["text"] entry, and the temporary file is gone. *)
Theorem transcribe_ok_means_transcribed (E : WhisperServer.env)
    (req : WhisperServer.request) (w : world) (r : response) (w' : world) :
  WhisperServer.transcribe E req w = (Ok r, w') ->
  status r = 200 ->
  let p := WhisperServer.tempfile_name E (fs w) +:+ ".wav" in
  exists mdl audio_file rd t,
    accepted_upload req w mdl audio_file
    /\ stored E audio_file w
    /\ WhisperServer.model_transcribe E mdl p = Returns (PDict rd)
    /\ dict_lookup "text" rd = Some t
    /\ (payload r = RawBody t
        \/ exists d, payload r = JsonBody (PDict d)
                     /\ dict_lookup "text" d = Some t)
    /\ fs w' = fs w
    /\ p ∉ fs w'.
Proof.
  intros Hout Hst p.
  destruct (transcribe_rejected_status E req w)
    as [(mdl & u & Hacc)|(x & Hr & Hs)].
  2:{ rewrite Hr in Hout. simplify_eq. destruct Hs; congruence. }
  destruct (decide (p ∈ fs w)) as [Htaken|Hfresh].
  { rewrite (transcribe_name_taken E req w mdl u Hacc Htaken) in Hout.
    simplify_eq; try discriminate. }
  destruct (WhisperServer.save E u p) as [[]|e] eqn:Hsave.
  2:{ rewrite (transcribe_save_raises E req w mdl u Hacc e Hfresh Hsave)
        in Hout. simplify_eq; try discriminate. }
  rewrite (transcribe_stored E req w mdl u Hacc (conj Hfresh Hsave)) in Hout.
  cbv zeta in Hout. fold p in Hout.
  destruct (WhisperServer.model_transcribe E mdl p) as [result|e] eqn:Hres;
    [|simplify_eq; try discriminate].
  destruct (fst (WhisperServer.shape_result _ result w)) as [x|e|c] eqn:Hshape;
    [|simplify_eq; try discriminate|discriminate].
  injection Hout as <- <-.
  destruct (shape_result_ok _ _ _ _ Hshape) as (_ & rd & t & -> & Ht).
  rewrite (shape_result_of_dict _ rd t w Ht) in Hshape. cbn in Hshape.
  exists mdl, u, rd, t.
  split; [exact Hacc|]. split; [split; assumption|].
  split; [exact Hres|]. split; [exact Ht|]. split.
  - injection Hshape as <-.
    destruct (String.eqb _ "json"); [right|left; reflexivity].
    eexists. split; reflexivity.
  - split; [reflexivity|exact Hfresh].
Qed.

Lemma transcribe_ok_means_transcribed_witness :
  exists w' rd t,
    WhisperServer.transcribe Scenario.stt_env Scenario.upload_as_text
      Scenario.stt_ready = (Ok (raw_response t 200 "text/plain"), w')
    /\ WhisperServer.model_transcribe Scenario.stt_env Scenario.stt_handle
         "/tmp/tmp7w0c2m_d.wav" = Returns (PDict rd)
    /\ dict_lookup "text" rd = Some t
    /\ fs w' = fs Scenario.stt_ready.
Proof.
  assert (Hacc : accepted_upload Scenario.upload_as_text Scenario.stt_ready
                   Scenario.stt_handle Scenario.clip).
  { repeat split; try reflexivity. discriminate. }
  assert (Hsto : stored Scenario.stt_env Scenario.clip Scenario.stt_ready).
  { split; [cbn; set_solver|reflexivity]. }
  pose proof (transcribe_stored Scenario.stt_env _ _ _ _ Hacc Hsto) as Hout.
  destruct (transcribe_ok_means_transcribed Scenario.stt_env
              Scenario.upload_as_text Scenario.stt_ready _ _ Hout eq_refl)
    as (mdl & u & rd & t & (Hm & _) & _ & Hres & Ht & _ & Hfs & _).
  injection Hm as <-. injection Hres as <-. injection Ht as <-.
  eexists _, _, _. split; [exact Hout|]. split; [reflexivity|].
  split; [reflexivity|exact Hfs].
Defined.

(** When saving the upload raises, POST /transcribe answers 500 through
    the outer [except] with the text of the exception, the model is never
    called, and the temporary file created for the request stays on disk:
    nothing on this path unlinks it. *)
Theorem transcribe_save_failure_leaves_file (E : WhisperServer.env)
    (req : WhisperServer.request) (w : world) (mdl : handle)
    (audio_file : WhisperServer.upload) (e : exn) :
  accepted_upload req w mdl audio_file ->
  let p := WhisperServer.tempfile_name E (fs w) +:+ ".wav" in
  p ∉ fs w ->
  WhisperServer.save E audio_file p = Raises e ->
  let out := WhisperServer.transcribe E req w in
  fst out = Ok (error_response ("Request processing failed: " +:+ exn_msg e) 500)
  /\ p ∈ fs (snd out)
  /\ emitted (WhisperServer.transcribe E req) w
     = [EvTmpCreate p; EvSave p;
        EvLog ERROR ("Request processing error: " +:+ exn_msg e)].
Proof.
  intros Hacc p Hfresh Hsave out.
  pose proof (transcribe_save_raises E req w mdl audio_file Hacc e
                Hfresh Hsave) as Hout.
  fold p out in Hout.
  split; [now rewrite Hout|]. split.
  - rewrite Hout. cbn. set_solver.
  - eapply emitted_of_trace. unfold out in Hout. rewrite Hout. reflexivity.
Qed.

Lemma transcribe_save_failure_leaves_file_witness :
  let out := WhisperServer.transcribe Cases.stt_env_disk_full
               Scenario.upload_default Scenario.stt_ready in
  fst out = Ok (error_response
                  "Request processing failed: [Errno 28] No space left on device"
                  500)
  /\ "/tmp/tmp7w0c2m_d.wav" ∈ fs (snd out).
Proof.
  assert (Hacc : accepted_upload Scenario.upload_default Scenario.stt_ready
                   Scenario.stt_handle Scenario.clip).
  { repeat split; try reflexivity. discriminate. }
  assert (Hfresh : "/tmp/tmp7w0c2m_d.wav" ∉ fs Scenario.stt_ready)
    by (cbn; set_solver).
  destruct (transcribe_save_failure_leaves_file Cases.stt_env_disk_full
              Scenario.upload_default Scenario.stt_ready Scenario.stt_handle
              Scenario.clip _ Hacc Hfresh eq_refl) as (Hresp & Hin & _).
  split; [exact Hresp|exact Hin].
Defined.

(** When the model returns a result without a ["text"] entry, POST
    /transcribe answers 500 "Transcription failed: 'text'" whatever the
    requested format.  The temporary file was removed before the result was
    looked at, and the [except] clause, finding it gone, does not unlink
    again. *)
Theorem transcribe_result_without_text_is_500 (E : WhisperServer.env)
    (req : WhisperServer.request) (w : world) (mdl : handle)
    (audio_file : WhisperServer.upload) (rd : list (string * pyval)) :
  accepted_upload req w mdl audio_file ->
  stored E audio_file w ->
  let p := WhisperServer.tempfile_name E (fs w) +:+ ".wav" in
  WhisperServer.model_transcribe E mdl p = Returns (PDict rd) ->
  dict_lookup "text" rd = None ->
  let out := WhisperServer.transcribe E req w in
  fst out = Ok (error_response "Transcription failed: 'text'" 500)
  /\ fs (snd out) = fs w
  /\ emitted (WhisperServer.transcribe E req) w
     = [EvTmpCreate p; EvSave p;
        EvLog INFO ("Transcribing audio file: " +:+ p);
        EvTranscribe p; EvUnlink p;
        EvLog ERROR "Transcription error: 'text'"].
Proof.
  intros Hacc Hsto p Hres Ht out.
  pose proof (transcribe_stored E req w mdl audio_file Hacc Hsto) as Hout.
  cbv zeta in Hout. fold p out in Hout.
  rewrite Hres, (shape_result_without_text _ rd w Ht) in Hout.
  split; [now rewrite Hout|]. split; [now rewrite Hout|].
  eapply emitted_of_trace. unfold out in Hout. rewrite Hout. reflexivity.
Qed.

Lemma transcribe_result_without_text_is_500_witness :
  let out := WhisperServer.transcribe Cases.stt_env_no_text
               Scenario.upload_as_text Scenario.stt_ready in
  fst out = Ok (error_response "Transcription failed: 'text'" 500)
  /\ fs (snd out) = fs Scenario.stt_ready.
Proof.
  assert (Hacc : accepted_upload Scenario.upload_as_text Scenario.stt_ready
                   Scenario.stt_handle Scenario.clip).
  { repeat split; try reflexivity. discriminate. }
  assert (Hsto : stored Cases.stt_env_no_text Scenario.clip
                   Scenario.stt_ready).
  { split; [cbn; set_solver|reflexivity]. }
  destruct (transcribe_result_without_text_is_500 Cases.stt_env_no_text
              Scenario.upload_as_text Scenario.stt_ready Scenario.stt_handle
              Scenario.clip [("language", PStr "en")] Hacc Hsto
              eq_refl eq_refl) as (Hresp & Hfs & _).
  split; [exact Hresp|exact Hfs].
Defined.

(** A failure after the read-back (the stretch, the format, the encoder)
    finds the temporary file already removed. *)
Lemma synthesize_rendered_removes_file_witness :
  fst (TTSServer.synthesize Cases.tts_env_stretch_raises
         (Scenario.post Scenario.body_fast) Scenario.tts_ready)
    = Ok (error_response
            "Speech synthesis failed: rate must be a positive number" 500)
  /\ "/tmp/tmpq3k1zv8a.wav"
       ∉ fs (snd (TTSServer.synthesize Cases.tts_env_stretch_raises
                    (Scenario.post Scenario.body_fast) Scenario.tts_ready)).
Proof.
  assert (Hacc : accepted (Scenario.post Scenario.body_fast) Scenario.tts_ready
                   Scenario.tts_handle Scenario.body_fast "hello").
  { repeat split; try reflexivity. vm_compute. discriminate. }
  assert (Hren : renders Cases.tts_env_stretch_raises Scenario.tts_handle
                   "hello" Scenario.tts_ready
                   [Scenario.half; Scenario.half] 22050).
  { repeat split; try reflexivity. cbn. set_solver. }
  split.
  - rewrite (synthesize_rendered Cases.tts_env_stretch_raises _ _ _ _ _
               Hacc _ _ Hren). reflexivity.
  - apply (synthesize_rendered_removes_file Cases.tts_env_stretch_raises
             (Scenario.post Scenario.body_fast) Scenario.tts_ready
             Scenario.tts_handle Scenario.body_fast "hello"
             [Scenario.half; Scenario.half] 22050 Hacc Hren).
Defined.
